(** * Coffee shop sales analysis: cleaning, cost estimation, aggregation, insights

    A shallow embedding of [CoffeeShopAnalysis] from
    [coffee_shop_analysis_complete.py].  A pandas [DataFrame] is a list of
    rows (records, one field per column); a column of dtype float64 holds
    [float64] values; a method that can raise returns a [result].

    Numbers.  A float64 is modelled as an exact rational or one of the three
    special values [PInf], [NInf], [NaN].  The special values follow IEEE-754
    as numpy implements it (0/0 is NaN, x/0 is an infinity, NaN compares
    false, sums skip NaN as pandas does).  Binary rounding error, overflow and
    the sign of zero are outside this model: finite arithmetic is exact.  It
    carries the properties that do not depend on rounding.  Where rounding
    decides, the lines concerned are embedded a second time over binary64
    floats, in module [B64].

    Parsers.  [pd.to_datetime] and [pd.to_numeric] are pandas code; with
    [errors='coerce'] they map a cell to a value or to NaT/NaN.  A raw cell is
    represented by that outcome: [None] (or [NaN]) for a cell that does not
    parse or is empty.  Without [errors='coerce'] (line 77) the model follows
    pandas 2, where text that does not parse raises. *)

From Stdlib Require Import ZArith QArith Qround Bool List String Ascii Lia.
From Stdlib Require Import Permutation DecimalString OrderedTypeEx.
From Stdlib Require Import Lqa.
From Stdlib Require Import PrimFloat.
Import ListNotations.

Open Scope Z_scope.
Open Scope Q_scope.

Set Warnings "-inexact-float".

(** ** float64 *)

Inductive float64 : Type :=
| Fin (q : Q)
| PInf
| NInf
| NaN.

Definition Qsgn (q : Q) : Z := Z.sgn (Qnum q).

Definition Qltb (a b : Q) : bool := negb (Qle_bool b a).

(** Sign of a float; NaN has none and is handled before any use. *)
Definition fsgn (x : float64) : Z :=
  match x with
  | Fin q => Qsgn q
  | PInf => 1
  | NInf => (-1)
  | NaN => 0
  end.

(** The infinity of a given sign; sign 0 stands for the invalid operations
    (0 * inf, 0 / 0), which produce NaN. *)
Definition inf_of_sign (s : Z) : float64 :=
  match s with
  | Z0 => NaN
  | Zpos _ => PInf
  | Zneg _ => NInf
  end.

Definition isnan (x : float64) : bool :=
  match x with NaN => true | _ => false end.

Definition notna (x : float64) : bool := negb (isnan x).

Definition fneg (x : float64) : float64 :=
  match x with
  | Fin q => Fin (- q)
  | PInf => NInf
  | NInf => PInf
  | NaN => NaN
  end.

Definition fadd (x y : float64) : float64 :=
  match x, y with
  | NaN, _ | _, NaN => NaN
  | Fin a, Fin b => Fin (a + b)
  | PInf, NInf | NInf, PInf => NaN
  | PInf, _ | _, PInf => PInf
  | NInf, _ | _, NInf => NInf
  end.

Definition fsub (x y : float64) : float64 := fadd x (fneg y).

Definition fmul (x y : float64) : float64 :=
  match x, y with
  | NaN, _ | _, NaN => NaN
  | Fin a, Fin b => Fin (a * b)
  | _, _ => inf_of_sign (fsgn x * fsgn y)
  end.

(** numpy true division. *)
Definition fdiv (x y : float64) : float64 :=
  match x, y with
  | NaN, _ | _, NaN => NaN
  | Fin a, Fin b =>
      if Qeq_bool b 0 then inf_of_sign (Qsgn a) else Fin (a / b)
  | Fin _, _ => Fin 0
  | _, Fin b => if Qeq_bool b 0 then x else inf_of_sign (fsgn x * Qsgn b)
  | _, _ => NaN
  end.

(** Comparisons; every comparison with NaN is false. *)
Definition fltb (x y : float64) : bool :=
  match x, y with
  | NaN, _ | _, NaN => false
  | Fin a, Fin b => Qltb a b
  | NInf, NInf => false
  | NInf, _ => true
  | _, PInf => match x with PInf => false | _ => true end
  | _, _ => false
  end.

Definition fleb (x y : float64) : bool :=
  match x, y with
  | NaN, _ | _, NaN => false
  | Fin a, Fin b => Qle_bool a b
  | NInf, _ => true
  | _, PInf => true
  | _, _ => false
  end.

Definition fgtb (x y : float64) : bool := fltb y x.
Definition fgeb (x y : float64) : bool := fleb y x.

(** [==] on floats: NaN differs from everything, itself included. *)
Definition feqb (x y : float64) : bool :=
  match x, y with
  | Fin a, Fin b => Qeq_bool a b
  | PInf, PInf | NInf, NInf => true
  | _, _ => false
  end.

(** Equality as [duplicated] and [nunique] see it: as [==], but a missing
    value equals a missing value. *)
Definition fsameb (x y : float64) : bool :=
  match x, y with
  | NaN, NaN => true
  | _, _ => feqb x y
  end.

(** [numpy.rint]: the nearest integer, halves to the even one. *)
Definition rint (q : Q) : Z :=
  let f := Qfloor q in
  let r := q - inject_Z f in
  match Qcompare r (1 # 2) with
  | Lt => f
  | Gt => (f + 1)%Z
  | Eq => if Z.even f then f else (f + 1)%Z
  end.

(** [numpy.round(x, n)] is [rint(x * 10**n) / 10**n]. *)
Definition Qround_dec (n : nat) (q : Q) : Q :=
  let p := inject_Z (10 ^ Z.of_nat n) in
  inject_Z (rint (q * p)) / p.

Definition fround (n : nat) (x : float64) : float64 :=
  match x with
  | Fin q => Fin (Qround_dec n q)
  | _ => x
  end.

(** Sum with [skipna=True]: missing values are left out, an empty sum is 0. *)
Definition fsum (l : list float64) : float64 :=
  fold_right fadd (Fin 0) (filter notna l).

(** Number of non-missing values. *)
Definition fcount (l : list float64) : Z :=
  Z.of_nat (List.length (filter notna l)).

(** Mean with [skipna=True]; the mean of no values is NaN (0/0). *)
Definition fmean (l : list float64) : float64 :=
  fdiv (fsum l) (Fin (inject_Z (fcount l))).

(** ** Errors *)

Inductive exn : Type :=
| ValueError          (* also pandas' DateParseError, a subclass *)
| ZeroDivisionError
| IndexError.

Inductive result (A : Type) : Type :=
| Ok (a : A)
| Raise (e : exn).
Arguments Ok {A} a.
Arguments Raise {A} e.

Definition bind {A B : Type} (m : result A) (k : A -> result B) : result B :=
  match m with
  | Ok a => k a
  | Raise e => Raise e
  end.

Notation "x <- m ;; k" := (bind m (fun x => k))
  (at level 61, m at next level, right associativity).

Fixpoint mapM {A B : Type} (f : A -> result B) (l : list A) : result (list B) :=
  match l with
  | [] => Ok []
  | x :: t => y <- f x ;; ys <- mapM f t ;; Ok (y :: ys)
  end.

(** Python's [a / b] on ints. *)
Definition truediv (a b : Z) : result Q :=
  if (b =? 0)%Z then Raise ZeroDivisionError
  else Ok (inject_Z a / inject_Z b).

(** ** Dates and times *)

(** A [pd.Timestamp]: days since 1970-01-01 and seconds since midnight. *)
Record Timestamp : Type := {
  ts_days : Z;
  ts_secs : Z
}.

(** A [datetime.time] as [strptime] with [%H:%M:%S] produces it. *)
Record time : Type := {
  t_hour : Z;
  t_minute : Z;
  t_second : Z
}.

Definition ts_seconds (t : Timestamp) : Z := (ts_days t * 86400 + ts_secs t)%Z.

(** Proleptic Gregorian (year, month) of a day number. *)
Definition civil_from_days (z : Z) : Z * Z :=
  let z := (z + 719468)%Z in
  let era := (z / 146097)%Z in
  let doe := (z - era * 146097)%Z in
  let yoe := ((doe - doe / 1460 + doe / 36524 - doe / 146096) / 365)%Z in
  let doy := (doe - (365 * yoe + yoe / 4 - yoe / 100))%Z in
  let mp := ((5 * doy + 2) / 153)%Z in
  let m := (if mp <? 10 then mp + 3 else mp - 9)%Z in
  ((if m <=? 2 then yoe + era * 400 + 1 else yoe + era * 400)%Z, m).

Definition dt_year (t : Timestamp) : Z := fst (civil_from_days (ts_days t)).
Definition dt_month (t : Timestamp) : Z := snd (civil_from_days (ts_days t)).

(** [dt.weekday]: Monday is 0; 1970-01-01 was a Thursday. *)
Definition dt_weekday (t : Timestamp) : Z := ((ts_days t + 3) mod 7)%Z.

Definition day_names : list string :=
  ["Monday"; "Tuesday"; "Wednesday"; "Thursday"; "Friday"; "Saturday";
   "Sunday"]%string.

Definition dt_day_name (t : Timestamp) : string :=
  nth (Z.to_nat (dt_weekday t)) day_names ""%string.

Definition dt_hour (t : Timestamp) : Z := (ts_secs t / 3600)%Z.

(** ** Tables *)

(** The raw table after lines 57-58, 64 and 68 have coerced its date, time,
    quantity and price columns. *)
Record raw_row : Type := {
  transaction_id : option Z;
  transaction_date : option Timestamp;
  transaction_time : option time;
  transaction_qty : float64;
  unit_price : float64;
  store_location : option string;
  product_category : option string;
  product_detail : option string
}.

(** The table [_clean_data] returns: the raw columns and the calculated ones.
    A calculated column is missing ([None]) where its source is. *)
Record clean_row : Type := {
  raw : raw_row;
  revenue : float64;
  datetime : option Timestamp;
  year : option Z;
  month : option Z;
  day_of_week : option string;
  hour : option Z;
  is_weekend : bool
}.

Definition notnull {A : Type} (x : option A) : bool :=
  match x with Some _ => true | None => false end.

Definition option_sameb {A : Type} (eqb : A -> A -> bool) (x y : option A) : bool :=
  match x, y with
  | Some a, Some b => eqb a b
  | None, None => true
  | _, _ => false
  end.

Definition Timestamp_eqb (a b : Timestamp) : bool :=
  (ts_days a =? ts_days b)%Z && (ts_secs a =? ts_secs b)%Z.

Definition time_eqb (a b : time) : bool :=
  (t_hour a =? t_hour b)%Z && (t_minute a =? t_minute b)%Z
  && (t_second a =? t_second b)%Z.

(** Two rows agree on every raw column. *)
Definition raw_sameb (a b : raw_row) : bool :=
  option_sameb Z.eqb (transaction_id a) (transaction_id b)
  && option_sameb Timestamp_eqb (transaction_date a) (transaction_date b)
  && option_sameb time_eqb (transaction_time a) (transaction_time b)
  && fsameb (transaction_qty a) (transaction_qty b)
  && fsameb (unit_price a) (unit_price b)
  && option_sameb String.eqb (store_location a) (store_location b)
  && option_sameb String.eqb (product_category a) (product_category b)
  && option_sameb String.eqb (product_detail a) (product_detail b).

(** Two rows agree on every column, as [drop_duplicates] compares them. *)
Definition clean_sameb (a b : clean_row) : bool :=
  raw_sameb (raw a) (raw b)
  && fsameb (revenue a) (revenue b)
  && option_sameb Timestamp_eqb (datetime a) (datetime b)
  && option_sameb Z.eqb (year a) (year b)
  && option_sameb Z.eqb (month a) (month b)
  && option_sameb String.eqb (day_of_week a) (day_of_week b)
  && option_sameb Z.eqb (hour a) (hour b)
  && Bool.eqb (is_weekend a) (is_weekend b).

(** [DataFrame.drop_duplicates()], keep='first': a row goes when an earlier
    row equals it. *)
Fixpoint drop_duplicates_from {A : Type} (same : A -> A -> bool)
    (seen : list A) (df : list A) : list A :=
  match df with
  | [] => []
  | r :: rest =>
      if existsb (same r) seen then drop_duplicates_from same seen rest
      else r :: drop_duplicates_from same (seen ++ [r]) rest
  end.

Definition drop_duplicates {A : Type} (same : A -> A -> bool) (df : list A) : list A :=
  drop_duplicates_from same [] df.

(** ** The cleaner: [_clean_data] *)

(** Line 77: the date as [%Y-%m-%d], a space and [str] of the time, parsed
    back with [pd.to_datetime] (errors='raise').  A missing time prints as
    the text NaT, and a date followed by that text does not parse. *)
Definition combine_datetime (r : raw_row) : result (option Timestamp) :=
  match transaction_date r with
  | None => Ok None
  | Some d =>
      match transaction_time r with
      | None => Raise ValueError
      | Some t =>
          Ok (Some {| ts_days := ts_days d;
                      ts_secs := (t_hour t * 3600 + t_minute t * 60
                                  + t_second t)%Z |})
      end
  end.

(** Lines 76-85 on one row. *)
Definition add_calculated_fields (r : raw_row) : result clean_row :=
  dt <- combine_datetime r ;;
  Ok {| raw := r;
        revenue := fmul (transaction_qty r) (unit_price r);
        datetime := dt;
        year := option_map dt_year (transaction_date r);
        month := option_map dt_month (transaction_date r);
        day_of_week := option_map dt_day_name (transaction_date r);
        hour := option_map dt_hour dt;
        is_weekend :=
          match transaction_date r with
          | Some d => (dt_weekday d >=? 5)%Z
          | None => false
          end |}.

Definition valid_date (r : raw_row) : bool := notnull (transaction_date r).
Definition valid_qty (r : raw_row) : bool := fgtb (transaction_qty r) (Fin 0).
Definition valid_price (r : raw_row) : bool :=
  fgeb (unit_price r) (Fin 0.01) && fleb (unit_price r) (Fin 15.0).
Definition valid_store_product (r : raw_row) : bool :=
  notnull (store_location r) && notnull (product_detail r).

(** Lines 61-73: the four row filters, in the order of the source. *)
Definition filter_rows (df : list raw_row) : list raw_row :=
  let data := filter valid_date df in
  let data := filter valid_qty data in
  let data := filter valid_price data in
  filter valid_store_product data.

Definition _clean_data (df : list raw_row) : result (list clean_row) :=
  let original_rows := Z.of_nat (List.length df) in
  let data := filter_rows df in
  data <- mapM add_calculated_fields data ;;
  let data := drop_duplicates clean_sameb data in
  let final_rows := Z.of_nat (List.length data) in
  ratio <- truediv final_rows original_rows ;;
  let retention_rate := ratio * 100 in
  Ok data.

(** The cleaned table read back as an input table: its raw columns. *)
Definition as_raw (df : list clean_row) : list raw_row := map raw df.

(** ** The cost estimator: [_estimate_costs] and lines 114-115 *)

Definition cost_rules : list (string * float64) :=
  [ ("Coffee", Fin 0.35);
    ("Tea", Fin 0.30);
    ("Drinking Chocolate", Fin 0.40);
    ("Frappé", Fin 0.45);
    ("Smoothies", Fin 0.50);
    ("Bakery", Fin 0.60);
    ("Branded", Fin 0.70);
    ("Flavours", Fin 0.25) ]%string.

Fixpoint dict_get {V : Type} (d : list (string * V)) (k : string) : option V :=
  match d with
  | [] => None
  | (k', v) :: rest => if String.eqb k' k then Some v else dict_get rest k
  end.

(** [Series.map(dict)]: a value that is missing or is no key maps to NaN. *)
Definition series_map (d : list (string * float64)) (x : option string) : float64 :=
  match x with
  | None => NaN
  | Some k => match dict_get d k with Some v => v | None => NaN end
  end.

Definition fillna (v x : float64) : float64 := if isnan x then v else x.

(** The table [_estimate_costs] returns. *)
Record costed_row : Type := {
  base : clean_row;
  estimated_cost_ratio : float64;
  estimated_cost : float64
}.

Definition estimate_cost_row (r : clean_row) : costed_row :=
  let ratio := fillna (Fin 0.5) (series_map cost_rules (product_category (raw r))) in
  {| base := r;
     estimated_cost_ratio := ratio;
     estimated_cost := fmul (revenue r) ratio |}.

Definition _estimate_costs (data : list clean_row) : list costed_row :=
  map estimate_cost_row data.

(** The table the analyses read. *)
Record enriched_row : Type := {
  costed : costed_row;
  estimated_profit : float64;
  profit_margin : float64
}.

(** Lines 114-115 on one row. *)
Definition profit_metrics_row (c : costed_row) : enriched_row :=
  let profit := fsub (revenue (base c)) (estimated_cost c) in
  {| costed := c;
     estimated_profit := profit;
     profit_margin := fdiv profit (revenue (base c)) |}.

Definition enrich (data : list clean_row) : list enriched_row :=
  map profit_metrics_row (_estimate_costs data).

(** Column accessors on the enriched table. *)
Definition e_raw (r : enriched_row) : raw_row := raw (base (costed r)).
Definition e_revenue (r : enriched_row) : float64 := revenue (base (costed r)).
Definition e_cost (r : enriched_row) : float64 := estimated_cost (costed r).
Definition e_qty (r : enriched_row) : float64 := transaction_qty (e_raw r).
Definition e_id (r : enriched_row) : option Z := transaction_id (e_raw r).
Definition e_store (r : enriched_row) : option string := store_location (e_raw r).
Definition e_category (r : enriched_row) : option string := product_category (e_raw r).
Definition e_detail (r : enriched_row) : option string := product_detail (e_raw r).
Definition e_date (r : enriched_row) : option Timestamp := transaction_date (e_raw r).

(** ** The financial summary *)

Record financial_summary : Type := {
  total_revenue : float64;
  total_estimated_cost : float64;
  total_estimated_profit : float64;
  overall_profit_margin : float64;
  total_transactions : Z;
  avg_transaction_value : float64;
  avg_transaction_profit : float64;
  analysis_period_days : float64
}.

Definition omap {A B : Type} (f : A -> option B) (l : list A) : list B :=
  flat_map (fun a => match f a with Some b => [b] | None => [] end) l.

(** [(max - min).days + 1] over the dates present; NaN when there is none. *)
Definition period_days (dates : list Timestamp) : float64 :=
  match map ts_seconds dates with
  | [] => NaN
  | s :: rest =>
      let hi := fold_right Z.max s rest in
      let lo := fold_right Z.min s rest in
      Fin (inject_Z ((hi - lo) / 86400 + 1))
  end.

Definition _analyze_financial_summary (data : list enriched_row) : financial_summary :=
  let total_revenue := fsum (map e_revenue data) in
  let total_cost := fsum (map e_cost data) in
  let total_profit := fsum (map estimated_profit data) in
  {| total_revenue := total_revenue;
     total_estimated_cost := total_cost;
     total_estimated_profit := total_profit;
     overall_profit_margin :=
       if fgtb total_revenue (Fin 0) then fdiv total_profit total_revenue
       else Fin 0;
     total_transactions := Z.of_nat (List.length data);
     avg_transaction_value := fmean (map e_revenue data);
     avg_transaction_profit := fmean (map estimated_profit data);
     analysis_period_days := period_days (omap e_date data) |}.

(** ** groupby *)

(** Group keys are ordered: [groupby] lists the groups by ascending key. *)
Class OrdKey (K : Type) : Type := { kcmp : K -> K -> comparison }.

#[export] Instance OrdKey_string : OrdKey string := {| kcmp := String.compare |}.
#[export] Instance OrdKey_Z : OrdKey Z := {| kcmp := Z.compare |}.
#[export] Instance OrdKey_pair {A B : Type} `{OrdKey A} `{OrdKey B} : OrdKey (A * B) :=
  {| kcmp := fun x y =>
       match kcmp (fst x) (fst y) with
       | Eq => kcmp (snd x) (snd y)
       | c => c
       end |}.

Definition key_eqb {K : Type} `{OrdKey K} (a b : K) : bool :=
  match kcmp a b with Eq => true | _ => false end.

(** Insert a key into an ascending list without repeating it. *)
Fixpoint insert_key {K : Type} `{OrdKey K} (k : K) (l : list K) : list K :=
  match l with
  | [] => [k]
  | h :: t =>
      match kcmp k h with
      | Lt => k :: h :: t
      | Eq => h :: t
      | Gt => h :: insert_key k t
      end
  end.

(** The distinct values of a list, ascending. *)
Definition sorted_keys {K : Type} `{OrdKey K} (l : list K) : list K :=
  fold_right insert_key [] l.

Definition has_key {R K : Type} `{OrdKey K} (key : R -> option K) (k : K) (r : R) : bool :=
  match key r with
  | Some k' => key_eqb k' k
  | None => false
  end.

(** [df.groupby(key)]: one group per distinct key, ascending (sort=True);
    rows whose key is missing belong to no group (dropna=True); rows keep
    their order inside a group. *)
Definition groupby {R K : Type} `{OrdKey K} (key : R -> option K) (df : list R)
    : list (K * list R) :=
  map (fun k => (k, filter (has_key key k) df)) (sorted_keys (omap key df)).

(** The aggregations used: 'sum', 'mean', 'count' and 'nunique' of a column
    over a group. *)
Definition agg_sum {R : Type} (col : R -> float64) (g : list R) : float64 :=
  fsum (map col g).

Definition agg_mean {R : Type} (col : R -> float64) (g : list R) : float64 :=
  fmean (map col g).

Definition agg_count {R A : Type} (col : R -> option A) (g : list R) : Z :=
  Z.of_nat (List.length (omap col g)).

Definition agg_nunique {R K : Type} `{OrdKey K} (col : R -> option K) (g : list R) : Z :=
  Z.of_nat (List.length (sorted_keys (omap col g))).

(** [sort_values(col, ascending=False)]: descending, missing values last.
    Rows with equal values keep their order, as pandas' insertion sort of a
    short table does; the theorems below use only that the result is the
    table reordered with no larger value after a smaller one. *)
Definition goes_after (x y : float64) : bool :=
  if isnan x then notna y else fltb x y.

Fixpoint insert_desc {A : Type} (col : A -> float64) (x : A) (l : list A) : list A :=
  match l with
  | [] => [x]
  | y :: t =>
      if goes_after (col x) (col y) then y :: insert_desc col x t
      else x :: y :: t
  end.

Definition sort_values_desc {A : Type} (col : A -> float64) (l : list A) : list A :=
  fold_right (insert_desc col) [] l.

Definition head {A : Type} (n : nat) (l : list A) : list A := firstn n l.
Definition tail {A : Type} (n : nat) (l : list A) : list A :=
  skipn (List.length l - n) l.

(** [Series.idxmax()]: the label of the first largest value, missing values
    skipped; raises on a series without values. *)
Fixpoint idxmax_from {L : Type} (best : L) (vbest : float64) (s : list (L * float64)) : L :=
  match s with
  | [] => best
  | (l, v) :: rest =>
      if fltb vbest v then idxmax_from l v rest else idxmax_from best vbest rest
  end.

Definition idxmax {L : Type} (s : list (L * float64)) : result L :=
  match filter (fun lv => notna (snd lv)) s with
  | [] => Raise ValueError
  | (l, v) :: rest => Ok (idxmax_from l v rest)
  end.

(** ** The aggregator *)

(** *** Products *)

Record product_metric : Type := {
  pm_revenue : float64;
  pm_estimated_cost : float64;
  pm_estimated_profit : float64;
  pm_transaction_qty : float64;
  pm_transaction_id : Z;
  pm_profit_margin : float64;
  pm_avg_profit_per_unit : float64
}.

(** Lines 173-184 on one group: the sums, rounded to 2 places, and the two
    ratios computed from the rounded sums. *)
Definition product_metric_of (g : list enriched_row) : product_metric :=
  let revenue := fround 2 (agg_sum e_revenue g) in
  let cost := fround 2 (agg_sum e_cost g) in
  let profit := fround 2 (agg_sum estimated_profit g) in
  let qty := fround 2 (agg_sum e_qty g) in
  {| pm_revenue := revenue;
     pm_estimated_cost := cost;
     pm_estimated_profit := profit;
     pm_transaction_qty := qty;
     pm_transaction_id := agg_count e_id g;
     pm_profit_margin := fround 3 (fdiv profit revenue);
     pm_avg_profit_per_unit := fround 2 (fdiv profit qty) |}.

Record product_analysis : Type := {
  product_metrics : list (string * product_metric);
  top_performers : list (string * product_metric);
  bottom_performers : list (string * product_metric);
  total_products : Z;
  profitable_products : Z
}.

Definition _analyze_products (data : list enriched_row) : product_analysis :=
  let product_metrics :=
    map (fun kg => (fst kg, product_metric_of (snd kg))) (groupby e_detail data) in
  let product_metrics :=
    sort_values_desc (fun km => pm_estimated_profit (snd km)) product_metrics in
  {| product_metrics := product_metrics;
     top_performers := head 10 product_metrics;
     bottom_performers := tail 5 product_metrics;
     total_products := Z.of_nat (List.length product_metrics);
     profitable_products :=
       Z.of_nat (List.length
         (filter (fun km => fgtb (pm_estimated_profit (snd km)) (Fin 0))
                 product_metrics)) |}.

(** *** Categories *)

Record category_metric : Type := {
  cm_revenue : float64;
  cm_estimated_cost : float64;
  cm_estimated_profit : float64;
  cm_transaction_qty : float64;
  cm_transaction_id : Z;
  cm_product_detail : Z;
  cm_profit_margin : float64;
  cm_revenue_share : float64
}.

(** Lines 199-206 on one group; the shares need the whole table and are
    filled in afterwards. *)
Definition category_sums_of (g : list enriched_row) : category_metric :=
  let revenue := fround 2 (agg_sum e_revenue g) in
  let profit := fround 2 (agg_sum estimated_profit g) in
  {| cm_revenue := revenue;
     cm_estimated_cost := fround 2 (agg_sum e_cost g);
     cm_estimated_profit := profit;
     cm_transaction_qty := fround 2 (agg_sum e_qty g);
     cm_transaction_id := agg_count e_id g;
     cm_product_detail := agg_nunique e_detail g;
     cm_profit_margin := fround 3 (fdiv profit revenue);
     cm_revenue_share := NaN |}.

Definition set_revenue_share (total : float64) (m : category_metric) : category_metric :=
  {| cm_revenue := cm_revenue m;
     cm_estimated_cost := cm_estimated_cost m;
     cm_estimated_profit := cm_estimated_profit m;
     cm_transaction_qty := cm_transaction_qty m;
     cm_transaction_id := cm_transaction_id m;
     cm_product_detail := cm_product_detail m;
     cm_profit_margin := cm_profit_margin m;
     cm_revenue_share := fround 3 (fdiv (cm_revenue m) total) |}.

Record category_analysis : Type := {
  category_metrics : list (string * category_metric);
  total_categories : Z
}.

Definition _analyze_categories (data : list enriched_row) : category_analysis :=
  let sums :=
    map (fun kg => (fst kg, category_sums_of (snd kg))) (groupby e_category data) in
  let total := fsum (map (fun km => cm_revenue (snd km)) sums) in
  let category_metrics :=
    map (fun km => (fst km, set_revenue_share total (snd km))) sums in
  let category_metrics :=
    sort_values_desc (fun km => cm_revenue (snd km)) category_metrics in
  {| category_metrics := category_metrics;
     total_categories := Z.of_nat (List.length category_metrics) |}.

(** *** Stores *)

Record store_metric : Type := {
  sm_revenue : float64;
  sm_estimated_cost : float64;
  sm_estimated_profit : float64;
  sm_transaction_id : Z;
  sm_product_detail : Z;
  sm_profit_margin : float64;
  sm_avg_transaction_value : float64
}.

Definition store_metric_of (g : list enriched_row) : store_metric :=
  let revenue := fround 2 (agg_sum e_revenue g) in
  let profit := fround 2 (agg_sum estimated_profit g) in
  let count := agg_count e_id g in
  {| sm_revenue := revenue;
     sm_estimated_cost := fround 2 (agg_sum e_cost g);
     sm_estimated_profit := profit;
     sm_transaction_id := count;
     sm_product_detail := agg_nunique e_detail g;
     sm_profit_margin := fround 3 (fdiv profit revenue);
     sm_avg_transaction_value := fround 2 (fdiv revenue (Fin (inject_Z count))) |}.

Record store_analysis : Type := {
  store_metrics : list (string * store_metric);
  total_stores : Z
}.

Definition _analyze_stores (data : list enriched_row) : store_analysis :=
  let store_metrics :=
    map (fun kg => (fst kg, store_metric_of (snd kg))) (groupby e_store data) in
  let store_metrics :=
    sort_values_desc (fun km => sm_revenue (snd km)) store_metrics in
  {| store_metrics := store_metrics;
     total_stores := Z.of_nat (List.length store_metrics) |}.

(** *** Time *)

Record monthly_metric : Type := {
  mm_revenue : float64;
  mm_estimated_profit : float64;
  mm_transaction_id : Z;
  mm_profit_margin : float64
}.

Record pattern_metric : Type := {
  tm_revenue : float64;
  tm_estimated_profit : float64;
  tm_transaction_id : Z
}.

Definition monthly_metric_of (g : list enriched_row) : monthly_metric :=
  let revenue := fround 2 (agg_sum e_revenue g) in
  let profit := fround 2 (agg_sum estimated_profit g) in
  {| mm_revenue := revenue;
     mm_estimated_profit := profit;
     mm_transaction_id := agg_count e_id g;
     mm_profit_margin := fround 3 (fdiv profit revenue) |}.

Definition pattern_metric_of (g : list enriched_row) : pattern_metric :=
  {| tm_revenue := fround 2 (agg_mean e_revenue g);
     tm_estimated_profit := fround 2 (agg_mean estimated_profit g);
     tm_transaction_id := agg_count e_id g |}.

Definition e_year_month (r : enriched_row) : option (Z * Z) :=
  match year (base (costed r)), month (base (costed r)) with
  | Some y, Some m => Some (y, m)
  | _, _ => None
  end.
Definition e_day_of_week (r : enriched_row) : option string :=
  day_of_week (base (costed r)).
Definition e_hour (r : enriched_row) : option Z := hour (base (costed r)).

Record temporal_analysis : Type := {
  monthly_trends : list ((Z * Z) * monthly_metric);
  daily_patterns : list (string * pattern_metric);
  hourly_patterns : list (Z * pattern_metric);
  peak_month : Z;
  peak_day : string;
  peak_hour : Z
}.

Definition _analyze_temporal_patterns (data : list enriched_row)
    : result temporal_analysis :=
  let monthly_data :=
    map (fun kg => (fst kg, monthly_metric_of (snd kg))) (groupby e_year_month data) in
  let daily_data :=
    map (fun kg => (fst kg, pattern_metric_of (snd kg))) (groupby e_day_of_week data) in
  let hourly_data :=
    map (fun kg => (fst kg, pattern_metric_of (snd kg))) (groupby e_hour data) in
  pm <- idxmax (map (fun km => (snd (fst km), mm_revenue (snd km))) monthly_data) ;;
  pd <- idxmax (map (fun km => (fst km, tm_revenue (snd km))) daily_data) ;;
  ph <- idxmax (map (fun km => (fst km, tm_revenue (snd km))) hourly_data) ;;
  Ok {| monthly_trends := monthly_data;
        daily_patterns := daily_data;
        hourly_patterns := hourly_data;
        peak_month := pm;
        peak_day := pd;
        peak_hour := ph |}.

(** ** The insight engine *)

Record insights_and_recommendations : Type := {
  key_insights : list string;
  recommendations : list string
}.

(** The dict [analyze_profitability] builds and stores in
    [self.analysis_results]. *)
Record results : Type := {
  r_financial_summary : financial_summary;
  r_product_analysis : product_analysis;
  r_category_analysis : category_analysis;
  r_store_analysis : store_analysis;
  r_temporal_analysis : temporal_analysis;
  r_insights_and_recommendations : insights_and_recommendations
}.

(** [self.analysis_results.get(key, default)], where the attribute is the
    empty dict of [__init__] ([None]) or the results of an earlier run. *)
Definition cached {A : Type} (analysis_results : option results)
    (field : results -> A) (default : A) : A :=
  match analysis_results with
  | Some r => field r
  | None => default
  end.

(** [str] of an integer. *)
Definition str_of_Z (z : Z) : string := NilZero.string_of_int (Z.to_int z).

Definition financial_insight (margin : float64) : list string * list string :=
  if fgtb margin (Fin 0.5) then
    (["Strong profitability with >50% profit margin"%string], [])
  else if fgtb margin (Fin 0.3) then
    (["Healthy profitability with moderate margins"%string], [])
  else
    (["Profitability needs improvement"%string],
     ["Review pricing strategy and cost optimization"%string]).

(** [index[0]] of a table. *)
Definition index0 {K V : Type} (t : list (K * V)) : result K :=
  match t with
  | [] => Raise IndexError
  | kv :: _ => Ok (fst kv)
  end.

(** Python evaluates the default of every [get] before the lookup, so each
    analysis is recomputed (and may raise) whether or not it is cached. *)
Definition _generate_insights (analysis_results : option results)
    (data : list enriched_row) : result insights_and_recommendations :=
  (* Financial insights *)
  let financial :=
    cached analysis_results r_financial_summary (_analyze_financial_summary data) in
  let '(insights, recommendations) :=
    financial_insight (overall_profit_margin financial) in
  (* Product insights *)
  let product_analysis :=
    cached analysis_results r_product_analysis (_analyze_products data) in
  let top_products := head 3 (top_performers product_analysis) in
  let insights := insights ++
    [("Top 3 profit generators: "
      ++ String.concat ", " (head 3 (map fst top_products)))%string] in
  (* Low-performing products *)
  let low_performers :=
    filter (fun km => fltb (pm_profit_margin (snd km)) (Fin 0.2))
           (product_metrics product_analysis) in
  let recommendations :=
    if (0 <? Z.of_nat (List.length low_performers))%Z then
      recommendations ++
      [("Review " ++ str_of_Z (Z.of_nat (List.length low_performers))
        ++ " products with <20% profit margin")%string]
    else recommendations in
  (* Category insights *)
  let category_analysis :=
    cached analysis_results r_category_analysis (_analyze_categories data) in
  top_category <- index0 (category_metrics category_analysis) ;;
  let insights := insights ++
    [("Most profitable category: " ++ top_category)%string] in
  (* Store insights *)
  let store_analysis :=
    cached analysis_results r_store_analysis (_analyze_stores data) in
  insights <-
    (if (1 <? Z.of_nat (List.length (store_metrics store_analysis)))%Z then
       best_store <- index0 (store_metrics store_analysis) ;;
       Ok (insights ++ [("Best performing store: " ++ best_store)%string])
     else Ok insights) ;;
  (* Temporal insights *)
  fresh <- _analyze_temporal_patterns data ;;
  let temporal_analysis := cached analysis_results r_temporal_analysis fresh in
  let insights := insights ++
    [("Peak performance: Month " ++ str_of_Z (peak_month temporal_analysis)
      ++ ", " ++ peak_day temporal_analysis ++ "s, "
      ++ str_of_Z (peak_hour temporal_analysis) ++ ":00")%string] in
  Ok {| key_insights := insights; recommendations := recommendations |}.

(** [analyze_profitability], with the two attributes it reads as arguments
    and the two it writes as the value: the enriched table stored in
    [self.cleaned_data] and the results stored in [self.analysis_results]. *)
Definition analyze_profitability (cleaned_data : option (list clean_row))
    (analysis_results : option results) : result (list enriched_row * results) :=
  match cleaned_data with
  | None => Raise ValueError
  | Some cleaned =>
      let data := enrich cleaned in
      let financial := _analyze_financial_summary data in
      let products := _analyze_products data in
      let categories := _analyze_categories data in
      let stores := _analyze_stores data in
      temporal <- _analyze_temporal_patterns data ;;
      insights <- _generate_insights analysis_results data ;;
      Ok (data,
          {| r_financial_summary := financial;
             r_product_analysis := products;
             r_category_analysis := categories;
             r_store_analysis := stores;
             r_temporal_analysis := temporal;
             r_insights_and_recommendations := insights |})
  end.

(** The class used as [run_complete_analysis] does: a fresh object, the
    cleaner, then the analysis. *)
Definition run_analysis (df : list raw_row) : result (list enriched_row * results) :=
  cleaned <- _clean_data df ;;
  analyze_profitability (Some cleaned) None.

(** ** The float columns in binary64 *)

(** The model above computes with exact rationals.  Where a result depends
    on how float64 rounds, the same lines of the source are embedded a
    second time over Rocq's primitive binary64 floats, which compute as the
    hardware does (IEEE-754, round to nearest even): the revenue of line 76,
    the cost estimator with lines 114-115, and the store summary.  The date
    and time columns hold no float and are left out of these rows. *)

Module B64.

Local Open Scope float_scope.

(** [numpy.rint] for the default rounding mode: adding and subtracting 2^52
    rounds to the nearest integer, halves to the even one; from 2^52 on every
    float64 is an integer, and infinities and NaN are returned as they are
    (the sign of a zero result is not tracked). *)
Definition two52 : float := 4503599627370496.

Definition rint (x : float) : float :=
  if PrimFloat.ltb (PrimFloat.abs x) two52 then
    if PrimFloat.ltb x 0 then (x - two52) + two52 else (x + two52) - two52
  else x.

(** [10 ** n] as numpy's rounding uses it; exact for the few places used. *)
Definition pow10 (n : nat) : float := Nat.iter n (fun p => p * 10) 1.

(** [numpy.round(x, n)], which [DataFrame.round] applies to a float column:
    the product [x * 10**n] is rounded to an integer and divided again. *)
Definition round (n : nat) (x : float) : float :=
  rint (x * pow10 n) / pow10 n.

(** An integer column as float64; exact below 2^53, which a count of rows
    never reaches. *)
Fixpoint of_pos (p : positive) : float :=
  match p with
  | xH => 1
  | xO q => 2 * of_pos q
  | xI q => 2 * of_pos q + 1
  end.

Definition of_Z (z : Z) : float :=
  match z with
  | Z0 => 0
  | Zpos p => of_pos p
  | Zneg p => - of_pos p
  end.

(** The group reduction 'sum' of pandas ([group_sum]): compensated (Kahan)
    summation over the rows of the group in table order, missing values
    skipped; a compensation that is NaN (after an infinity) is reset. *)
Definition kahan_step (st : float * float) (val : float) : float * float :=
  let '(sumx, compensation) := st in
  if PrimFloat.is_nan val then st
  else
    let y := val - compensation in
    let t := sumx + y in
    let c := (t - sumx) - y in
    (t, if PrimFloat.is_nan c then 0 else c).

Definition group_sum (values : list float) : float :=
  fst (fold_left kahan_step values (0, 0)).

(** The columns of the raw table that the lines embedded here read, after
    the coercions of lines 64 and 68. *)
Record raw_row : Type := {
  transaction_id : option Z;
  transaction_qty : float;
  unit_price : float;
  store_location : option string;
  product_category : option string;
  product_detail : option string
}.

Record clean_row : Type := {
  raw : raw_row;
  revenue : float
}.

(** Line 76. *)
Definition add_revenue (r : raw_row) : clean_row :=
  {| raw := r; revenue := transaction_qty r * unit_price r |}.

(** Lines 137-146, the literals read as float64. *)
Definition cost_rules : list (string * float) :=
  [ ("Coffee", 0.35);
    ("Tea", 0.30);
    ("Drinking Chocolate", 0.40);
    ("Frappé", 0.45);
    ("Smoothies", 0.50);
    ("Bakery", 0.60);
    ("Branded", 0.70);
    ("Flavours", 0.25) ]%string.

(** [Series.map(dict)]: NaN for a missing cell or a key outside the dict. *)
Definition series_map (d : list (string * float)) (x : option string) : float :=
  match x with
  | None => PrimFloat.nan
  | Some k => match dict_get d k with Some v => v | None => PrimFloat.nan end
  end.

Definition fillna (v x : float) : float := if PrimFloat.is_nan x then v else x.

Record costed_row : Type := {
  base : clean_row;
  estimated_cost_ratio : float;
  estimated_cost : float
}.

(** Lines 149-150 on one row. *)
Definition estimate_cost_row (r : clean_row) : costed_row :=
  let ratio := fillna 0.5 (series_map cost_rules (product_category (raw r))) in
  {| base := r;
     estimated_cost_ratio := ratio;
     estimated_cost := revenue r * ratio |}.

Definition _estimate_costs (data : list clean_row) : list costed_row :=
  map estimate_cost_row data.

Record enriched_row : Type := {
  costed : costed_row;
  estimated_profit : float;
  profit_margin : float
}.

(** Lines 114-115 on one row. *)
Definition profit_metrics_row (c : costed_row) : enriched_row :=
  let profit := revenue (base c) - estimated_cost c in
  {| costed := c;
     estimated_profit := profit;
     profit_margin := profit / revenue (base c) |}.

Definition enrich (data : list clean_row) : list enriched_row :=
  map profit_metrics_row (_estimate_costs data).

Definition e_revenue (r : enriched_row) : float := revenue (base (costed r)).
Definition e_cost (r : enriched_row) : float := estimated_cost (costed r).
Definition e_id (r : enriched_row) : option Z :=
  transaction_id (raw (base (costed r))).
Definition e_store (r : enriched_row) : option string :=
  store_location (raw (base (costed r))).
Definition e_detail (r : enriched_row) : option string :=
  product_detail (raw (base (costed r))).

Definition agg_sum {R : Type} (col : R -> float) (g : list R) : float :=
  group_sum (map col g).

(** [sort_values(col, ascending=False)]: descending, NaN last. *)
Definition goes_after (x y : float) : bool :=
  if PrimFloat.is_nan x then negb (PrimFloat.is_nan y) else PrimFloat.ltb x y.

Fixpoint insert_desc {A : Type} (col : A -> float) (x : A) (l : list A) : list A :=
  match l with
  | [] => [x]
  | y :: t =>
      if goes_after (col x) (col y) then y :: insert_desc col x t
      else x :: y :: t
  end.

Definition sort_values_desc {A : Type} (col : A -> float) (l : list A) : list A :=
  fold_right (insert_desc col) [] l.

Record store_metric : Type := {
  sm_revenue : float;
  sm_estimated_cost : float;
  sm_estimated_profit : float;
  sm_transaction_id : Z;
  sm_product_detail : Z;
  sm_profit_margin : float;
  sm_avg_transaction_value : float
}.

(** Lines 223-234 on one group. *)
Definition store_metric_of (g : list enriched_row) : store_metric :=
  let revenue := round 2 (agg_sum e_revenue g) in
  let profit := round 2 (agg_sum estimated_profit g) in
  let count := agg_count e_id g in
  {| sm_revenue := revenue;
     sm_estimated_cost := round 2 (agg_sum e_cost g);
     sm_estimated_profit := profit;
     sm_transaction_id := count;
     sm_product_detail := agg_nunique e_detail g;
     sm_profit_margin := round 3 (profit / revenue);
     sm_avg_transaction_value := round 2 (revenue / of_Z count) |}.

Record store_analysis : Type := {
  store_metrics : list (string * store_metric);
  total_stores : Z
}.

Definition _analyze_stores (data : list enriched_row) : store_analysis :=
  let store_metrics :=
    map (fun kg => (fst kg, store_metric_of (snd kg))) (groupby e_store data) in
  let store_metrics :=
    sort_values_desc (fun km => sm_revenue (snd km)) store_metrics in
  {| store_metrics := store_metrics;
     total_stores := Z.of_nat (List.length store_metrics) |}.



Definition enriched_of (df : list raw_row) : list enriched_row :=
  enrich (map add_revenue df).

End B64.

(** ** Definitions used to state the properties *)

(** The laws of a key order: [kcmp] decides equality and is a strict total
    order. *)
Class OrdKeyLaws (K : Type) `{OrdKey K} : Prop := {
  kcmp_eq : forall a b : K, kcmp a b = Eq -> a = b;
  kcmp_refl : forall a : K, kcmp a a = Eq;
  kcmp_antisym : forall a b : K, kcmp b a = CompOpp (kcmp a b);
  kcmp_trans : forall a b c : K, kcmp a b = Lt -> kcmp b c = Lt -> kcmp a c = Lt
}.

(** A key list is ascending when every key is below all later ones. *)
Inductive ascending {K : Type} `{OrdKey K} : list K -> Prop :=
| ascending_nil : ascending []
| ascending_cons (k : K) (l : list K) :
    (forall x, In x l -> kcmp k x = Lt) -> ascending l -> ascending (k :: l).

(** Keeping first occurrences, as the specification words it: a row stays
    exactly when no earlier row of the table, kept or not, equals it. *)
Fixpoint keep_first_after {A : Type} (same : A -> A -> bool)
    (earlier : list A) (df : list A) : list A :=
  match df with
  | [] => []
  | r :: rest =>
      (if existsb (fun e => same e r) earlier then [] else [r])
      ++ keep_first_after same (earlier ++ [r]) rest
  end.

Definition keep_first {A : Type} (same : A -> A -> bool) (df : list A) : list A :=
  keep_first_after same [] df.

(** The rows of a table that carry a given key, in table order. *)
Definition group_of {R K : Type} `{OrdKey K} (key : R -> option K) (k : K)
    (df : list R) : list R :=
  filter (has_key key k) df.




(** ** Example tables *)

Definition example_row (id : Z) (day : Z) (t : option time) (qty price : float64)
    (store category detail : option string) : raw_row :=
  {| transaction_id := Some id;
     transaction_date := Some {| ts_days := day; ts_secs := 0 |};
     transaction_time := t;
     transaction_qty := qty;
     unit_price := price;
     store_location := store;
     product_category := category;
     product_detail := detail |}.

Definition t_070611 : option time :=
  Some {| t_hour := 7; t_minute := 6; t_second := 11 |}.
Definition t_093000 : option time :=
  Some {| t_hour := 9; t_minute := 30; t_second := 0 |}.

(** 2023-01-01 is day 19358. *)
Definition row_latte : raw_row :=
  example_row 1 19358 t_070611 (Fin 2) (Fin 3.5)
    (Some "Astoria"%string) (Some "Coffee"%string) (Some "Latte"%string).

Definition row_tea : raw_row :=
  example_row 2 19359 t_093000 (Fin 1) (Fin 2.5)
    (Some "Lower Manhattan"%string) (Some "Tea"%string) (Some "Earl Grey"%string).


(** A tenth of a unit at one cent. *)
Definition row_tenth : raw_row :=
  example_row 4 19358 t_070611 (Fin 0.1) (Fin 0.01)
    (Some "Astoria"%string) (Some "Coffee"%string) (Some "Sample sip"%string).

(** A time cell that did not parse. *)
Definition row_no_time : raw_row :=
  example_row 5 19358 None (Fin 2) (Fin 3.5)
    (Some "Astoria"%string) (Some "Coffee"%string) (Some "Latte"%string).

(** A date cell that did not parse. *)
Definition row_no_date : raw_row :=
  {| transaction_id := Some 6%Z;
     transaction_date := None;
     transaction_time := t_070611;
     transaction_qty := Fin 2;
     unit_price := Fin 3.5;
     store_location := Some "Astoria"%string;
     product_category := Some "Coffee"%string;
     product_detail := Some "Latte"%string |}.

(** An empty category cell. *)
Definition row_no_category : raw_row :=
  example_row 7 19358 t_070611 (Fin 2) (Fin 3.5)
    (Some "Astoria"%string) None (Some "Latte"%string).

(** The cleaned table of an input, empty when the cleaner raises. *)
Definition cleaned_of (df : list raw_row) : list clean_row :=
  match _clean_data df with
  | Ok data => data
  | Raise _ => []
  end.

(** The enriched table of an input. *)
Definition enriched_of (df : list raw_row) : list enriched_row :=
  enrich (cleaned_of df).

(** The total of a column of counts. *)
Definition sum_Z (l : list Z) : Z := fold_right Z.add 0%Z l.

(** ** Further example rows and predicates *)

(** Quantity -1. *)
Definition row_negative_qty : raw_row :=
  example_row 8 19358 t_070611 (Fin (-1)) (Fin 3.5)
    (Some "Astoria"%string) (Some "Coffee"%string) (Some "Latte"%string).

(** Unit price 20.00. *)
Definition row_pricey : raw_row :=
  example_row 9 19358 t_070611 (Fin 1) (Fin 20.00)
    (Some "Astoria"%string) (Some "Coffee"%string) (Some "Latte"%string).

(** A row passes the cleaner's four filters. *)
Definition passes_filters (r : raw_row) : bool :=
  valid_date r && valid_qty r && valid_price r && valid_store_product r.

(** A summary table keyed by a column: one row for each distinct value
    present in the column, computed by [f] from exactly the rows that carry
    the value. *)
Definition keyed_by {R M : Type} (key : R -> option string) (f : list R -> M)
    (data : list R) (table : list (string * M)) : Prop :=
  NoDup (map fst table)
  /\ (forall k, In k (map fst table) <-> exists r, In r data /\ key r = Some k)
  /\ (forall k m, In (k, m) table -> m = f (group_of key k data)).

(** A table in descending order of a column, missing values last: no row
    has a larger value than an earlier one, and after a missing value all
    values are missing. *)
Definition descending {A : Type} (col : A -> float64) (l : list A) : Prop :=
  ForallOrdPairs
    (fun a b => fltb (col a) (col b) = false
                /\ (isnan (col a) = true -> isnan (col b) = true)) l.

(** A value above 0: a positive number or plus infinity. *)
Definition positive (x : float64) : bool := fltb (Fin 0) x.










(** * Properties *)

(** ** Arithmetic of the number model *)








Lemma fltb_irrefl (x : float64) : fltb x x = false.
Proof.
  destruct x; cbn; try reflexivity.
  unfold Qltb. apply negb_false_iff, Qle_bool_iff, Qle_refl.
Qed.

Lemma fsameb_refl (x : float64) : fsameb x x = true.
Proof.
  destruct x; cbn; try reflexivity. apply Qeq_bool_iff. reflexivity.
Qed.

Lemma fsameb_sym (x y : float64) : fsameb x y = fsameb y x.
Proof.
  destruct x, y; cbn; try reflexivity. apply Qeq_bool_comm.
Qed.

Lemma fsameb_trans (x y z : float64) :
  fsameb x y = true -> fsameb y z = true -> fsameb x z = true.
Proof.
  destruct x, y, z; cbn; try congruence.
  rewrite !Qeq_bool_iff. intros H1 H2. now rewrite H1.
Qed.

Lemma Qsgn_comp (a b : Q) : a == b -> Qsgn a = Qsgn b.
Proof.
  unfold Qeq, Qsgn. intros H.
  destruct a as [na da], b as [nb db]; cbn in *.
  destruct na, nb; cbn in *; try reflexivity; try discriminate; lia.
Qed.

Lemma fmul_same (x1 y1 x2 y2 : float64) :
  fsameb x1 x2 = true -> fsameb y1 y2 = true ->
  fsameb (fmul x1 y1) (fmul x2 y2) = true.
Proof.
  destruct x1, x2; cbn; try discriminate; intros Hx;
    destruct y1, y2; cbn; try discriminate; intros Hy;
    try reflexivity;
    try apply Qeq_bool_iff in Hx; try apply Qeq_bool_iff in Hy.
  - apply Qeq_bool_iff. now rewrite Hx, Hy.
  - rewrite (Qsgn_comp _ _ Hx). apply fsameb_refl.
  - rewrite (Qsgn_comp _ _ Hx). apply fsameb_refl.
  - rewrite (Qsgn_comp _ _ Hy). apply fsameb_refl.
  - rewrite (Qsgn_comp _ _ Hy). apply fsameb_refl.
Qed.

(** ** Key orders *)

#[export] Instance OrdKeyLaws_Z : OrdKeyLaws Z.
Proof.
  split; cbn.
  - intros a b. apply Z.compare_eq.
  - apply Z.compare_refl.
  - intros a b. apply Z.compare_antisym.
  - intros a b c. rewrite !Z.compare_lt_iff. lia.
Qed.

#[export] Instance OrdKeyLaws_string : OrdKeyLaws string.
Proof.
  split; cbn.
  - apply String.compare_eq_iff.
  - intros a. apply String_as_OT.cmp_eq. reflexivity.
  - intros a b. apply String.compare_antisym.
  - intros a b c H1 H2.
    apply String_as_OT.cmp_lt. apply String_as_OT.cmp_lt in H1, H2.
    eapply String_as_OT.lt_trans; eassumption.
Qed.

#[export] Instance OrdKeyLaws_pair (A B : Type) `{OrdKeyLaws A} `{OrdKeyLaws B} :
  OrdKeyLaws (A * B).
Proof.
  split; cbn.
  - intros [a1 b1] [a2 b2]; cbn.
    destruct (kcmp a1 a2) eqn:E; try discriminate.
    intros Hb. apply kcmp_eq in E, Hb. congruence.
  - intros [a b]; cbn. now rewrite !kcmp_refl.
  - intros [a1 b1] [a2 b2]; cbn.
    rewrite (kcmp_antisym a1 a2).
    destruct (kcmp a1 a2); cbn; try reflexivity. apply kcmp_antisym.
  - intros [a1 b1] [a2 b2] [a3 b3]; cbn.
    destruct (kcmp a1 a2) eqn:E12; try discriminate;
      destruct (kcmp a2 a3) eqn:E23; try discriminate; intros Hx Hy.
    + apply kcmp_eq in E12, E23. subst. rewrite kcmp_refl.
      eapply kcmp_trans; eassumption.
    + apply kcmp_eq in E12. subst. now rewrite E23.
    + apply kcmp_eq in E23. subst. now rewrite E12.
    + now rewrite (kcmp_trans _ _ _ E12 E23).
Qed.

Section Keys.
Context {K : Type} `{OrdKeyLaws K}.

Lemma kcmp_gt_lt (a b : K) : kcmp a b = Gt -> kcmp b a = Lt.
Proof. intros E. rewrite kcmp_antisym, E. reflexivity. Qed.

Lemma kcmp_lt_gt (a b : K) : kcmp a b = Lt -> kcmp b a = Gt.
Proof. intros E. rewrite kcmp_antisym, E. reflexivity. Qed.

Lemma key_eqb_eq (a b : K) : key_eqb a b = true <-> a = b.
Proof.
  unfold key_eqb. split.
  - destruct (kcmp a b) eqn:E; try discriminate. intros _. now apply kcmp_eq.
  - intros ->. now rewrite kcmp_refl.
Qed.

Lemma In_insert_key (x k : K) (l : list K) :
  In x (insert_key k l) <-> x = k \/ In x l.
Proof.
  induction l as [|h t IH]; cbn.
  - intuition.
  - destruct (kcmp k h) eqn:E; cbn.
    + apply kcmp_eq in E. subst. intuition.
    + intuition.
    + rewrite IH. intuition.
Qed.

Lemma In_sorted_keys (x : K) (l : list K) : In x (sorted_keys l) <-> In x l.
Proof.
  induction l as [|h t IH]; cbn; [tauto|].
  rewrite In_insert_key, IH. intuition.
Qed.




Lemma insert_key_ascending (k : K) (l : list K) :
  ascending l -> ascending (insert_key k l).
Proof.
  induction 1 as [|h t Hh Ht IH]; cbn.
  - constructor; [intros x []|constructor].
  - destruct (kcmp k h) eqn:E.
    + now constructor.
    + constructor; [|now constructor].
      intros x [<-|Hx]; [exact E|].
      eapply kcmp_trans; [exact E|]. now apply Hh.
    + constructor; [|exact IH].
      intros x Hx. apply In_insert_key in Hx. destruct Hx as [->|Hx].
      * now apply kcmp_gt_lt.
      * now apply Hh.
Qed.

Lemma sorted_keys_ascending (l : list K) : ascending (sorted_keys l).
Proof.
  induction l as [|h t IH]; cbn; [constructor|].
  now apply insert_key_ascending.
Qed.

(** In an ascending list a key occurs once. *)
Lemma ascending_count (k : K) (l : list K) :
  ascending l -> In k l -> List.length (filter (key_eqb k) l) = 1%nat.
Proof.
  induction 1 as [|h t Hh Ht IH]; cbn; [intros []|].
  intros [->|Hk].
  - unfold key_eqb at 1. rewrite kcmp_refl. cbn. f_equal.
    assert (Hnone : forall x, In x t -> key_eqb k x = false).
    { intros x Hx. unfold key_eqb. now rewrite (Hh x Hx). }
    clear -Hnone. induction t as [|y t IHt]; cbn; [reflexivity|].
    rewrite (Hnone y (or_introl eq_refl)). apply IHt.
    intros x Hx. apply Hnone. now right.
  - unfold key_eqb at 1. rewrite (kcmp_lt_gt _ _ (Hh k Hk)). now apply IH.
Qed.
End Keys.

(** ** The groups and their counts do not depend on the row order *)





(** ** Row equality is an equivalence *)

Lemma Timestamp_eqb_eq (a b : Timestamp) : Timestamp_eqb a b = true <-> a = b.
Proof.
  unfold Timestamp_eqb. rewrite andb_true_iff, !Z.eqb_eq.
  destruct a, b; cbn. split; [intros [-> ->]; reflexivity|].
  intros E. now inversion E.
Qed.

Lemma time_eqb_eq (a b : time) : time_eqb a b = true <-> a = b.
Proof.
  unfold time_eqb. rewrite !andb_true_iff, !Z.eqb_eq.
  destruct a, b; cbn. split; [intros [[-> ->] ->]; reflexivity|].
  intros E. now inversion E.
Qed.

Lemma option_sameb_eq {A : Type} (eqb : A -> A -> bool) (x y : option A) :
  (forall a b, eqb a b = true <-> a = b) ->
  option_sameb eqb x y = true <-> x = y.
Proof.
  intros Heqb. destruct x, y; cbn; rewrite ?Heqb;
    split; congruence.
Qed.

(** Rows that agree on every raw column differ at most in how the quantity
    and the price are written as fractions. *)
Lemma raw_sameb_spec (a b : raw_row) :
  raw_sameb a b = true <->
  transaction_id a = transaction_id b /\
  transaction_date a = transaction_date b /\
  transaction_time a = transaction_time b /\
  fsameb (transaction_qty a) (transaction_qty b) = true /\
  fsameb (unit_price a) (unit_price b) = true /\
  store_location a = store_location b /\
  product_category a = product_category b /\
  product_detail a = product_detail b.
Proof.
  unfold raw_sameb. rewrite !andb_true_iff.
  rewrite !(option_sameb_eq Z.eqb _ _ Z.eqb_eq),
    !(option_sameb_eq _ _ _ Timestamp_eqb_eq),
    !(option_sameb_eq _ _ _ time_eqb_eq),
    !(option_sameb_eq _ _ _ String.eqb_eq).
  tauto.
Qed.

Lemma raw_sameb_refl (a : raw_row) : raw_sameb a a = true.
Proof.
  apply raw_sameb_spec. rewrite !fsameb_refl. repeat split.
Qed.

Lemma raw_sameb_sym (a b : raw_row) : raw_sameb a b = raw_sameb b a.
Proof.
  apply eq_true_iff_eq. rewrite !raw_sameb_spec.
  rewrite (fsameb_sym (transaction_qty a)), (fsameb_sym (unit_price a)).
  intuition congruence.
Qed.

Lemma raw_sameb_trans (a b c : raw_row) :
  raw_sameb a b = true -> raw_sameb b c = true -> raw_sameb a c = true.
Proof.
  rewrite !raw_sameb_spec.
  intros (H1 & H2 & H3 & H4 & H5 & H6 & H7 & H8)
         (G1 & G2 & G3 & G4 & G5 & G6 & G7 & G8).
  repeat split; try congruence; eapply fsameb_trans; eassumption.
Qed.

(** ** The cleaner *)

Lemma mapM_Ok {A B : Type} (f : A -> result B) (l : list A) (out : list B) :
  mapM f l = Ok out -> Forall2 (fun x y => f x = Ok y) l out.
Proof.
  revert out. induction l as [|x t IH]; cbn; intros out E.
  - inversion E. constructor.
  - destruct (f x) as [y|] eqn:Ef; cbn in E; [|discriminate].
    destruct (mapM f t) as [ys|]; cbn in E; [|discriminate].
    inversion E. subst. constructor; auto.
Qed.

Lemma Forall2_mapM {A B : Type} (f : A -> result B) (l : list A) (out : list B) :
  Forall2 (fun x y => f x = Ok y) l out -> mapM f l = Ok out.
Proof.
  induction 1 as [|x y l out E _ IH]; cbn; [reflexivity|].
  now rewrite E, IH.
Qed.

Lemma add_calculated_fields_raw (r : raw_row) (y : clean_row) :
  add_calculated_fields r = Ok y -> raw y = r.
Proof.
  unfold add_calculated_fields.
  destruct (combine_datetime r); cbn; [|discriminate].
  intros E. inversion E. reflexivity.
Qed.

Lemma add_calculated_fields_revenue (r : raw_row) (y : clean_row) :
  add_calculated_fields r = Ok y ->
  revenue y = fmul (transaction_qty r) (unit_price r).
Proof.
  unfold add_calculated_fields.
  destruct (combine_datetime r); cbn; [|discriminate].
  intros E. inversion E. reflexivity.
Qed.

Lemma calculated_raw (l : list raw_row) (out : list clean_row) :
  Forall2 (fun x y => add_calculated_fields x = Ok y) l out -> map raw out = l.
Proof.
  induction 1 as [|x y l out E _ IH]; cbn; [reflexivity|].
  now rewrite IH, (add_calculated_fields_raw _ _ E).
Qed.

Lemma calculated_self (l : list raw_row) (out : list clean_row) :
  Forall2 (fun x y => add_calculated_fields x = Ok y) l out ->
  Forall (fun y => add_calculated_fields (raw y) = Ok y) out.
Proof.
  induction 1 as [|x y l out E _ IH]; constructor; [|exact IH].
  now rewrite (add_calculated_fields_raw _ _ E).
Qed.

(** The calculated columns of a row, from its raw ones. *)
Lemma add_calculated_fields_columns (r : raw_row) (y : clean_row) :
  add_calculated_fields r = Ok y ->
  combine_datetime r = Ok (datetime y)
  /\ year y = option_map dt_year (transaction_date r)
  /\ month y = option_map dt_month (transaction_date r)
  /\ day_of_week y = option_map dt_day_name (transaction_date r)
  /\ hour y = option_map dt_hour (datetime y)
  /\ is_weekend y = match transaction_date r with
                    | Some d => (dt_weekday d >=? 5)%Z
                    | None => false
                    end.
Proof.
  unfold add_calculated_fields.
  destruct (combine_datetime r) as [dt|]; cbn [bind]; [|discriminate].
  intros E. injection E as <-.
  cbn [datetime year month day_of_week hour is_weekend]. repeat split.
Qed.

Lemma option_sameb_refl {A : Type} (eqb : A -> A -> bool) (x : option A) :
  (forall a, eqb a a = true) -> option_sameb eqb x x = true.
Proof.
  intros Hr. destruct x; cbn [option_sameb]; auto.
Qed.

Lemma Timestamp_eqb_refl (a : Timestamp) : Timestamp_eqb a a = true.
Proof.
  now apply Timestamp_eqb_eq.
Qed.

(** On rows the cleaner calculated, comparing all columns is comparing the
    raw ones: the calculated columns follow from them. *)
Lemma clean_sameb_raw (a b : clean_row) :
  add_calculated_fields (raw a) = Ok a ->
  add_calculated_fields (raw b) = Ok b ->
  clean_sameb a b = raw_sameb (raw a) (raw b).
Proof.
  intros Ha Hb. unfold clean_sameb.
  destruct (raw_sameb (raw a) (raw b)) eqn:E; [|reflexivity].
  apply raw_sameb_spec in E.
  destruct E as (_ & Hd & Ht & Hq & Hp & _).
  pose proof (add_calculated_fields_revenue _ _ Ha) as Ra.
  pose proof (add_calculated_fields_revenue _ _ Hb) as Rb.
  apply add_calculated_fields_columns in Ha, Hb.
  destruct Ha as (Da & Ya & Ma & Wa & Ha & Ea).
  destruct Hb as (Db & Yb & Mb & Wb & Hb & Eb).
  assert (Dab : datetime a = datetime b).
  { unfold combine_datetime in Da, Db. rewrite <- Hd, <- Ht in Db.
    rewrite Da in Db. now injection Db. }
  rewrite Ra, Rb, (fmul_same _ _ _ _ Hq Hp).
  rewrite Ha, Hb, Ya, Yb, Ma, Mb, Wa, Wb, Ea, Eb, Dab, <- Hd.
  rewrite !(option_sameb_refl _ _ Z.eqb_refl),
    (option_sameb_refl _ _ Timestamp_eqb_refl),
    (option_sameb_refl _ _ String.eqb_refl), Bool.eqb_reflx.
  reflexivity.
Qed.

Lemma drop_duplicates_from_In {A : Type} (same : A -> A -> bool)
    (seen l : list A) (x : A) :
  In x (drop_duplicates_from same seen l) -> In x l.
Proof.
  revert seen. induction l as [|h t IH]; cbn; intros seen; [tauto|].
  destruct (existsb (same h) seen); cbn; intros Hx.
  - right. eapply IH, Hx.
  - destruct Hx as [->|Hx]; [now left|right; eapply IH, Hx].
Qed.

Lemma drop_duplicates_from_idem {A : Type} (same : A -> A -> bool)
    (seen l : list A) :
  drop_duplicates_from same seen (drop_duplicates_from same seen l)
  = drop_duplicates_from same seen l.
Proof.
  revert seen. induction l as [|h t IH]; cbn; intros seen; [reflexivity|].
  destruct (existsb (same h) seen) eqn:E; cbn; [apply IH|].
  now rewrite E, IH.
Qed.

(** A kept row equals no row kept before it. *)
Lemma drop_duplicates_from_pairs {A : Type} (same : A -> A -> bool)
    (seen l : list A) :
  ForallOrdPairs (fun a b => same b a = false) (drop_duplicates_from same seen l)
  /\ Forall (fun b => existsb (same b) seen = false)
            (drop_duplicates_from same seen l).
Proof.
  revert seen. induction l as [|h t IH]; cbn; intros seen.
  - split; constructor.
  - destruct (existsb (same h) seen) eqn:E; [apply IH|].
    destruct (IH (seen ++ [h])) as [Hp Hs]. split.
    + constructor; [|exact Hp].
      eapply Forall_impl; [|exact Hs]. cbn. intros b Hb.
      rewrite existsb_app in Hb. apply orb_false_iff in Hb.
      destruct Hb as [_ Hb]. cbn in Hb. now rewrite orb_false_r in Hb.
    + constructor; [exact E|].
      eapply Forall_impl; [|exact Hs]. cbn. intros b Hb.
      rewrite existsb_app in Hb. now apply orb_false_iff in Hb.
Qed.

(** Dropping a row when a kept row equals it is dropping it when any
    earlier row does, for an equivalence [same]. *)
Lemma drop_duplicates_keep_first {A : Type} (same : A -> A -> bool)
    (seen earlier l : list A) :
  (forall a b, same a b = same b a) ->
  (forall a b c, same a b = true -> same b c = true -> same a c = true) ->
  (forall x, existsb (same x) seen = existsb (fun e => same e x) earlier) ->
  drop_duplicates_from same seen l = keep_first_after same earlier l.
Proof.
  intros Hsym Htrans. revert seen earlier.
  induction l as [|h t IH]; cbn; intros seen earlier Hinv; [reflexivity|].
  rewrite <- Hinv. destruct (existsb (same h) seen) eqn:E; cbn.
  - apply IH. intros x. rewrite existsb_app, <- Hinv. cbn.
    rewrite orb_false_r.
    destruct (same h x) eqn:Ehx; [|now rewrite orb_false_r].
    rewrite orb_true_r. apply existsb_exists in E.
    destruct E as (s & Hs & Ehs). apply existsb_exists. exists s.
    split; [exact Hs|]. eapply Htrans; [|exact Ehs]. now rewrite Hsym.
  - f_equal. apply IH. intros x. rewrite !existsb_app, <- Hinv. cbn.
    now rewrite (Hsym x h).
Qed.

(** Deduplicating with an equality that factors through a projection. *)
Lemma drop_duplicates_from_map {A B : Type} (f : A -> B)
    (sameA : A -> A -> bool) (sameB : B -> B -> bool) (seen l : list A) :
  (forall a b, In a (seen ++ l) -> In b (seen ++ l) ->
               sameA a b = sameB (f a) (f b)) ->
  map f (drop_duplicates_from sameA seen l)
  = drop_duplicates_from sameB (map f seen) (map f l).
Proof.
  revert seen. induction l as [|h t IH]; cbn; intros seen Hs; [reflexivity|].
  assert (E : existsb (sameA h) seen = existsb (sameB (f h)) (map f seen)).
  { clear IH. assert (Hh : In h (seen ++ h :: t)) by (apply in_or_app; right; now left).
    assert (Hsub : forall s, In s seen -> sameA h s = sameB (f h) (f s)).
    { intros s Hin. apply Hs; [exact Hh|]. apply in_or_app. now left. }
    clear Hs Hh. induction seen as [|s seen IHs]; cbn; [reflexivity|].
    rewrite (Hsub s (or_introl eq_refl)). f_equal.
    apply IHs. intros s' Hin. apply Hsub. now right. }
  rewrite E. destruct (existsb (sameB (f h)) (map f seen)).
  - apply IH. intros a b Ha Hb. apply Hs;
      apply in_app_or in Ha, Hb; apply in_or_app; cbn; tauto.
  - cbn. f_equal. rewrite IH, map_app; [reflexivity|].
    intros a b Ha Hb. apply Hs;
      rewrite <- app_assoc in Ha, Hb; exact Ha || exact Hb.
Qed.

Lemma filter_all {A : Type} (f : A -> bool) (l : list A) :
  Forall (fun x => f x = true) l -> filter f l = l.
Proof.
  induction 1 as [|x l Hx _ IH]; cbn; [reflexivity|]. now rewrite Hx, IH.
Qed.

Lemma filter_rows_In (df : list raw_row) (r : raw_row) :
  In r (filter_rows df) <->
  In r df /\ valid_date r = true /\ valid_qty r = true
  /\ valid_price r = true /\ valid_store_product r = true.
Proof.
  unfold filter_rows. rewrite !filter_In. tauto.
Qed.

Lemma filter_rows_valid (l : list raw_row) :
  Forall (fun r => valid_date r = true /\ valid_qty r = true
                   /\ valid_price r = true /\ valid_store_product r = true) l ->
  filter_rows l = l.
Proof.
  intros H. unfold filter_rows.
  rewrite (filter_all valid_date l), (filter_all valid_qty l),
    (filter_all valid_price l), (filter_all valid_store_product l);
    try reflexivity;
    (eapply Forall_impl; [|exact H]); intros r Hr; apply Hr.
Qed.

(** What a successful run of the cleaner returns. *)
Lemma _clean_data_Ok (df : list raw_row) (data : list clean_row) :
  _clean_data df = Ok data ->
  df <> [] /\
  exists out,
    Forall2 (fun x y => add_calculated_fields x = Ok y) (filter_rows df) out
    /\ data = drop_duplicates clean_sameb out.
Proof.
  unfold _clean_data.
  destruct (mapM add_calculated_fields (filter_rows df)) as [out|] eqn:E;
    cbn; [|discriminate].
  unfold truediv.
  destruct (Z.of_nat (List.length df) =? 0)%Z eqn:Elen; cbn; [discriminate|].
  intros Hd. inversion Hd. split.
  - intros ->. discriminate.
  - exists out. split; [now apply mapM_Ok|reflexivity].
Qed.

Lemma _clean_data_intro (df : list raw_row) (out : list clean_row) :
  df <> [] ->
  Forall2 (fun x y => add_calculated_fields x = Ok y) (filter_rows df) out ->
  _clean_data df = Ok (drop_duplicates clean_sameb out).
Proof.
  intros Hne Hout. unfold _clean_data.
  rewrite (Forall2_mapM _ _ _ Hout). cbn. unfold truediv.
  destruct df as [|r df]; [congruence|]. reflexivity.
Qed.

Lemma mapM_Raise {A B : Type} (f : A -> result B) (l : list A) (r : A) (e : exn) :
  (forall x e', f x = Raise e' -> e' = e) ->
  In r l -> f r = Raise e -> mapM f l = Raise e.
Proof.
  intros Honly. induction l as [|h t IH]; intros Hin Hr; [destruct Hin|].
  cbn [mapM]. destruct (f h) as [y|e'] eqn:Eh; cbn [bind].
  - destruct Hin as [->|Hin]; [congruence|].
    now rewrite (IH Hin Hr).
  - now rewrite (Honly _ _ Eh).
Qed.

Lemma add_calculated_fields_Raise (r : raw_row) (e : exn) :
  add_calculated_fields r = Raise e -> e = ValueError.
Proof.
  unfold add_calculated_fields, combine_datetime.
  destruct (transaction_date r); [destruct (transaction_time r)|];
    cbn [bind]; congruence.
Qed.

(** The cleaner raises whenever a row that passes the four filters has a
    time cell that did not parse. *)
Lemma _clean_data_missing_time (df : list raw_row) (r : raw_row) :
  In r (filter_rows df) -> transaction_time r = None ->
  _clean_data df = Raise ValueError.
Proof.
  intros Hin Ht. unfold _clean_data.
  rewrite (mapM_Raise add_calculated_fields (filter_rows df) r ValueError).
  - reflexivity.
  - apply add_calculated_fields_Raise.
  - exact Hin.
  - apply filter_rows_In in Hin. destruct Hin as (_ & Hd & _).
    unfold valid_date in Hd.
    unfold add_calculated_fields, combine_datetime. rewrite Ht.
    destruct (transaction_date r); [reflexivity|discriminate].
Qed.

(** X4.  Run again on its own result, the cleaner returns that result, provided
    a row survived. *)
Lemma _clean_data_idempotent (df : list raw_row) (data : list clean_row) :
  _clean_data df = Ok data -> data <> [] ->
  _clean_data (as_raw data) = Ok data.
Proof.
  intros H Hne. apply _clean_data_Ok in H.
  destruct H as (_ & out & Hout & ->).
  pose proof (calculated_self _ _ Hout) as Hself.
  pose proof (calculated_raw _ _ Hout) as Hraw.
  set (data := drop_duplicates clean_sameb out) in *.
  assert (Hsub : forall y, In y data -> In y out)
    by (intros y; apply drop_duplicates_from_In).
  assert (Hvalid : filter_rows (as_raw data) = as_raw data).
  { apply filter_rows_valid, Forall_forall. intros r Hr.
    apply in_map_iff in Hr. destruct Hr as (y & <- & Hy).
    assert (Hin : In (raw y) (filter_rows df)).
    { rewrite <- Hraw. apply in_map, Hsub, Hy. }
    apply filter_rows_In in Hin. tauto. }
  assert (Hcalc : Forall2 (fun x y => add_calculated_fields x = Ok y)
                    (filter_rows (as_raw data)) data).
  { rewrite Hvalid. unfold as_raw.
    assert (Hall : Forall (fun y => add_calculated_fields (raw y) = Ok y) data).
    { apply Forall_forall. intros y Hy.
      rewrite Forall_forall in Hself. apply Hself, Hsub, Hy. }
    clear -Hall. induction Hall; cbn; constructor; auto. }
  rewrite (_clean_data_intro (as_raw data) data); [|  | exact Hcalc].
  - f_equal. apply drop_duplicates_from_idem.
  - unfold as_raw. destruct data; [congruence|discriminate].
Qed.

(** ** Claims about the cleaner *)

(** C3.  Every row the cleaner returns has a quantity above 0, a unit price
    in [0.01, 15.00], a store location and a product detail that are
    present, and a revenue equal to quantity times unit price. *)
Theorem C3_cleaned_rows_valid (df : list raw_row) (data : list clean_row) :
  _clean_data df = Ok data ->
  Forall (fun r =>
            fltb (Fin 0) (transaction_qty (raw r)) = true
            /\ (exists p, unit_price (raw r) = Fin p /\ 0.01 <= p /\ p <= 15.0)
            /\ store_location (raw r) <> None
            /\ product_detail (raw r) <> None
            /\ revenue r = fmul (transaction_qty (raw r)) (unit_price (raw r)))
         data.
Proof.
  intros H. apply _clean_data_Ok in H. destruct H as (_ & out & Hout & ->).
  apply Forall_forall. intros y Hy.
  apply drop_duplicates_from_In in Hy.
  pose proof (calculated_self _ _ Hout) as Hself.
  rewrite Forall_forall in Hself. specialize (Hself y Hy).
  assert (Hin : In (raw y) (filter_rows df)).
  { rewrite <- (calculated_raw _ _ Hout). now apply in_map. }
  apply filter_rows_In in Hin.
  destruct Hin as (_ & _ & Hq & Hp & Hs).
  unfold valid_qty, fgtb in Hq. unfold valid_price, fgeb in Hp.
  unfold valid_store_product in Hs.
  apply andb_true_iff in Hp, Hs. destruct Hp as [Hlo Hhi], Hs as [Hst Hpd].
  repeat split.
  - exact Hq.
  - destruct (unit_price (raw y)) as [p| | |]; cbn in Hlo, Hhi;
      try discriminate.
    exists p. apply Qle_bool_iff in Hlo, Hhi. auto.
  - destruct (store_location (raw y)); [discriminate|discriminate].
  - destruct (product_detail (raw y)); [discriminate|discriminate].
  - now apply add_calculated_fields_revenue.
Qed.

Lemma C3_cleaned_rows_valid_witness :
  _clean_data [row_latte; row_tea] = Ok (cleaned_of [row_latte; row_tea])
  /\ Forall (fun r =>
            fltb (Fin 0) (transaction_qty (raw r)) = true
            /\ (exists p, unit_price (raw r) = Fin p /\ 0.01 <= p /\ p <= 15.0)
            /\ store_location (raw r) <> None
            /\ product_detail (raw r) <> None
            /\ revenue r = fmul (transaction_qty (raw r)) (unit_price (raw r)))
         (cleaned_of [row_latte; row_tea]).
Proof.
  split; [reflexivity|].
  apply (C3_cleaned_rows_valid [row_latte; row_tea]). reflexivity.
Defined.

(** C4.  The claim says the step that combines date and time never throws
    for a row whose time did not parse.  On a table with such a row, valid
    otherwise, the cleaner raises at that step and returns no table. *)
Theorem C4_missing_time_aborts_cleaning :
  valid_date row_no_time = true /\ valid_qty row_no_time = true
  /\ valid_price row_no_time = true /\ valid_store_product row_no_time = true
  /\ combine_datetime row_no_time = Raise ValueError
  /\ _clean_data [row_latte; row_no_time; row_tea] = Raise ValueError.
Proof.
  repeat split.
Qed.

(** C6.  The claim says a second run of the cleaner on its own result keeps
    the row count, for every input.  When no row survives the first run,
    the second run divides by a row count of 0 and raises. *)
Theorem C6_second_run_on_empty_result_raises :
  _clean_data [row_no_date] = Ok []
  /\ _clean_data (as_raw []) = Raise ZeroDivisionError.
Proof.
  split; reflexivity.
Qed.

(** C7.  In the table the cleaner returns no two rows agree on all raw
    columns, and its rows are the rows that pass the filters and that no
    earlier such row equals: of equal rows the first stays. *)
Theorem C7_no_duplicates_first_kept (df : list raw_row) (data : list clean_row) :
  _clean_data df = Ok data ->
  ForallOrdPairs (fun a b => raw_sameb (raw a) (raw b) = false) data
  /\ map raw data = keep_first raw_sameb (filter_rows df).
Proof.
  intros H. apply _clean_data_Ok in H. destruct H as (_ & out & Hout & ->).
  pose proof (calculated_self _ _ Hout) as Hself.
  rewrite Forall_forall in Hself.
  assert (Hsame : forall a b, In a out -> In b out ->
                    clean_sameb a b = raw_sameb (raw a) (raw b)).
  { intros a b Ha Hb. apply clean_sameb_raw; auto. }
  split.
  - destruct (drop_duplicates_from_pairs clean_sameb [] out) as [Hp _].
    assert (Hsub : forall y, In y (drop_duplicates clean_sameb out) -> In y out)
      by (intros y; apply drop_duplicates_from_In).
    unfold drop_duplicates in *.
    induction Hp as [|a l Ha Hp IH]; constructor.
    + rewrite Forall_forall in Ha. apply Forall_forall. intros b Hb.
      rewrite raw_sameb_sym, <- Hsame.
      * now apply Ha.
      * apply Hsub. now right.
      * apply Hsub. now left.
    + apply IH. intros y Hy. apply Hsub. now right.
  - unfold drop_duplicates, keep_first.
    rewrite (drop_duplicates_from_map raw clean_sameb raw_sameb [] out).
    + rewrite (calculated_raw _ _ Hout). cbn.
      apply drop_duplicates_keep_first.
      * apply raw_sameb_sym.
      * apply raw_sameb_trans.
      * reflexivity.
    + cbn. intros a b Ha Hb. now apply Hsame.
Qed.

Lemma C7_no_duplicates_first_kept_witness :
  _clean_data [row_latte; row_tea; row_latte]
  = Ok (cleaned_of [row_latte; row_tea; row_latte])
  /\ map raw (cleaned_of [row_latte; row_tea; row_latte]) = [row_latte; row_tea].
Proof.
  split; [reflexivity|].
  destruct (C7_no_duplicates_first_kept [row_latte; row_tea; row_latte]
              (cleaned_of [row_latte; row_tea; row_latte]) eq_refl) as [_ E].
  rewrite E. reflexivity.
Defined.

(** ** Claims about the cost estimator *)


Lemma dict_get_In {V : Type} (d : list (string * V)) (k : string) (v : V) :
  dict_get d k = Some v -> In v (map snd d).
Proof.
  induction d as [|[k' v'] d IH]; cbn [dict_get map snd]; [discriminate|].
  destruct (String.eqb k' k).
  - intros E. injection E as ->. now left.
  - intros E. right. now apply IH.
Qed.

(** The ratio column holds a finite number on every row. *)
Lemma estimated_cost_ratio_finite (r : clean_row) :
  exists q, estimated_cost_ratio (estimate_cost_row r) = Fin q.
Proof.
  cbn [estimate_cost_row estimated_cost_ratio]. unfold series_map.
  destruct (product_category (raw r)) as [k|]; [|cbn; eauto].
  destruct (dict_get cost_rules k) as [v|] eqn:E; [|cbn; eauto].
  apply dict_get_In in E. cbn in E.
  repeat (destruct E as [<-|E]; [cbn; eauto|]). destruct E.
Qed.

Lemma Qsgn_zero (q : Q) : q == 0 -> Qsgn q = 0%Z.
Proof.
  intros E. now rewrite (Qsgn_comp _ _ E).
Qed.

(** Line 115 divides without a guard: on a row of revenue 0 the margin is
    0/0, that is NaN. *)
Lemma profit_margin_zero_revenue (r : clean_row) (v : Q) :
  revenue r = Fin v -> v == 0 ->
  profit_margin (profit_metrics_row (estimate_cost_row r)) = NaN.
Proof.
  intros Hr Hv. destruct (estimated_cost_ratio_finite r) as [q Hq].
  cbn [estimate_cost_row estimated_cost_ratio] in Hq.
  cbn [profit_metrics_row profit_margin estimate_cost_row estimated_cost base].
  rewrite Hq, Hr. cbn [fmul fsub fadd fneg fdiv].
  assert (E : Qeq_bool v 0 = true) by now apply Qeq_bool_iff.
  rewrite E, Qsgn_zero; [reflexivity|].
  rewrite Hv. ring.
Qed.

(** Line 164 guards its division: without a positive total revenue the
    overall margin is 0. *)
Lemma overall_profit_margin_guarded (data : list enriched_row) :
  fgtb (total_revenue (_analyze_financial_summary data)) (Fin 0) = false ->
  overall_profit_margin (_analyze_financial_summary data) = Fin 0.
Proof.
  cbn. intros E. now rewrite E.
Qed.

(** C1.  The claim says a margin is 0 wherever revenue is 0 and is never
    NaN.  One sale of a tenth of a unit at one cent passes the cleaner; its
    group revenue rounds to 0.00 and the product, category, store and month
    margins are all NaN. *)
Theorem C1_zero_revenue_group_margin_is_nan :
  exists data res pm cm sm mm,
    run_analysis [row_tenth] = Ok (data, res)
    /\ product_metrics (r_product_analysis res) = [("Sample sip"%string, pm)]
    /\ category_metrics (r_category_analysis res) = [("Coffee"%string, cm)]
    /\ store_metrics (r_store_analysis res) = [("Astoria"%string, sm)]
    /\ monthly_trends (r_temporal_analysis res) = [((2023%Z, 1%Z), mm)]
    /\ feqb (pm_revenue pm) (Fin 0) = true /\ pm_profit_margin pm = NaN
    /\ feqb (cm_revenue cm) (Fin 0) = true /\ cm_profit_margin cm = NaN
    /\ feqb (sm_revenue sm) (Fin 0) = true /\ sm_profit_margin sm = NaN
    /\ feqb (mm_revenue mm) (Fin 0) = true /\ mm_profit_margin mm = NaN.
Proof.
  do 6 eexists. split; [vm_compute; reflexivity|].
  repeat split.
Qed.

(** ** Sorting and the tables of the aggregator *)

Lemma insert_desc_perm {A : Type} (col : A -> float64) (x : A) (l : list A) :
  Permutation (insert_desc col x l) (x :: l).
Proof.
  induction l as [|y t IH]; cbn; [apply Permutation_refl|].
  destruct (goes_after (col x) (col y)); [|apply Permutation_refl].
  eapply Permutation_trans; [apply perm_skip, IH|apply perm_swap].
Qed.

Lemma sort_values_desc_perm {A : Type} (col : A -> float64) (l : list A) :
  Permutation (sort_values_desc col l) l.
Proof.
  induction l as [|x t IH]; cbn; [constructor|].
  eapply Permutation_trans; [apply insert_desc_perm|now constructor].
Qed.


Lemma sort_values_desc_length {A : Type} (col : A -> float64) (l : list A) :
  List.length (sort_values_desc col l) = List.length l.
Proof.
  apply Permutation_length, sort_values_desc_perm.
Qed.

(** A row of a table built from [groupby] holds the aggregate of the rows
    that carry its key. *)
Lemma groupby_agg_In {R K M : Type} `{OrdKey K} (key : R -> option K)
    (f : list R -> M) (df : list R) (k : K) (m : M) :
  In (k, m) (map (fun kg => (fst kg, f (snd kg))) (groupby key df)) ->
  m = f (group_of key k df).
Proof.
  unfold groupby. rewrite map_map. cbn. intros Hin.
  apply in_map_iff in Hin. destruct Hin as (k' & E & _).
  inversion E. reflexivity.
Qed.

(** ** Claims about rounding *)




(** ** Claims about the group counts *)

Lemma sum_Z_add {A : Type} (a b : A -> Z) (l : list A) :
  sum_Z (map (fun k => (a k + b k)%Z) l)
  = (sum_Z (map a l) + sum_Z (map b l))%Z.
Proof.
  unfold sum_Z. induction l as [|x t IH]; cbn [map fold_right]; [reflexivity|].
  rewrite IH. lia.
Qed.

Lemma sum_Z_indicator {A : Type} (f : A -> bool) (l : list A) :
  sum_Z (map (fun k => if f k then 1%Z else 0%Z) l)
  = Z.of_nat (List.length (filter f l)).
Proof.
  unfold sum_Z. induction l as [|x t IH]; cbn [map fold_right filter];
    [reflexivity|].
  rewrite IH. destruct (f x); cbn [List.length]; lia.
Qed.

Lemma filter_none {A : Type} (f : A -> bool) (l : list A) :
  (forall x, In x l -> f x = false) -> filter f l = [].
Proof.
  induction l as [|x t IH]; cbn; intros Hf; [reflexivity|].
  rewrite (Hf x (or_introl eq_refl)). apply IH. intros y Hy. apply Hf. now right.
Qed.

(** The 'count' column of a grouped table adds up to the number of rows
    that have both a group key and a counted value. *)
Lemma count_over_keys {R K A : Type} `{OrdKeyLaws K} (key : R -> option K)
    (col : R -> option A) (ks : list K) (l : list R) :
  ascending ks ->
  (forall r k, In r l -> key r = Some k -> In k ks) ->
  sum_Z (map (fun k => agg_count col (filter (has_key key k) l)) ks)
  = Z.of_nat (List.length
                (filter (fun r => notnull (key r) && notnull (col r)) l)).
Proof.
  intros Hasc. induction l as [|r t IH]; intros Hcov.
  - rewrite (map_ext _ (fun _ => 0%Z)) by reflexivity.
    cbn [filter List.length Z.of_nat]. clear. unfold sum_Z.
    induction ks as [|k ks IHk]; cbn [map fold_right]; [reflexivity|].
    now rewrite IHk.
  - rewrite (map_ext _
      (fun k => ((if has_key key k r && notnull (col r) then 1 else 0)
                 + agg_count col (filter (has_key key k) t))%Z)).
    2:{ intros k. cbn [filter]. unfold agg_count.
        destruct (has_key key k r); cbn [andb]; [|reflexivity].
        unfold omap. cbn [flat_map]. rewrite length_app.
        destruct (col r); cbn [notnull List.length]; lia. }
    rewrite sum_Z_add, IH by (intros r' k Hr; apply Hcov; now right).
    cbn [filter].
    assert (E : sum_Z (map (fun k => if has_key key k r && notnull (col r)
                                     then 1%Z else 0%Z) ks)
                = if notnull (key r) && notnull (col r) then 1%Z else 0%Z).
    { rewrite sum_Z_indicator. unfold has_key.
      destruct (key r) as [k'|] eqn:Ek; cbn [notnull andb].
      - destruct (notnull (col r)).
        + rewrite (filter_ext _ (key_eqb k')) by (intros; apply andb_true_r).
          rewrite (ascending_count k' ks Hasc); [reflexivity|].
          apply (Hcov r k'); [now left|exact Ek].
        + rewrite filter_none; [reflexivity|]. intros; apply andb_false_r.
      - rewrite filter_none; [reflexivity|]. reflexivity. }
    rewrite E. destruct (notnull (key r) && notnull (col r));
      cbn [List.length]; lia.
Qed.

Lemma omap_In {A B : Type} (f : A -> option B) (l : list A) (a : A) (b : B) :
  In a l -> f a = Some b -> In b (omap f l).
Proof.
  intros Ha Hf. unfold omap. apply in_flat_map. exists a. split; [exact Ha|].
  rewrite Hf. now left.
Qed.

Lemma groupby_count_sum {R K A M : Type} `{OrdKeyLaws K} (key : R -> option K)
    (col : R -> option A) (f : list R -> M) (count : M -> Z) (df : list R) :
  (forall g, count (f g) = agg_count col g) ->
  sum_Z (map (fun km => count (snd km))
           (map (fun kg => (fst kg, f (snd kg))) (groupby key df)))
  = Z.of_nat (List.length
                (filter (fun r => notnull (key r) && notnull (col r)) df)).
Proof.
  intros Hcount. unfold groupby. rewrite !map_map. cbn [fst snd].
  rewrite (map_ext _ (fun k => agg_count col (filter (has_key key k) df)))
    by (intros; apply Hcount).
  apply count_over_keys.
  - apply sorted_keys_ascending.
  - intros r k Hr Hk. apply In_sorted_keys. eapply omap_In; eassumption.
Qed.

Lemma sum_Z_perm (l1 l2 : list Z) : Permutation l1 l2 -> sum_Z l1 = sum_Z l2.
Proof.
  unfold sum_Z. induction 1; cbn [fold_right] in *; lia.
Qed.

(** C10, as stated, fails.  A sale without a category survives cleaning and
    is counted in the financial summary, but belongs to no category group:
    of two transactions the category counts sum to 1. *)
Lemma C10_counterexample :
  exists data res,
    run_analysis [row_tea; row_no_category] = Ok (data, res)
    /\ total_transactions (r_financial_summary res) = 2%Z
    /\ sum_Z (map (fun km => cm_transaction_id (snd km))
                (category_metrics (r_category_analysis res)))
       = 1%Z.
Proof.
  do 2 eexists. split; [vm_compute; reflexivity|]. split; reflexivity.
Qed.

(** C10, amended.  The store counts sum to the number of rows that have a
    store and a transaction id, the category counts to the number of rows
    that have a category and a transaction id; each sum is the total of the
    financial summary when no row lacks any of them. *)
Theorem C10_group_counts (data : list enriched_row) :
  sum_Z (map (fun km => sm_transaction_id (snd km))
           (store_metrics (_analyze_stores data)))
  = Z.of_nat (List.length
                (filter (fun r => notnull (e_store r) && notnull (e_id r)) data))
  /\ sum_Z (map (fun km => cm_transaction_id (snd km))
              (category_metrics (_analyze_categories data)))
     = Z.of_nat (List.length
                   (filter (fun r => notnull (e_category r) && notnull (e_id r))
                           data))
  /\ (Forall (fun r => e_store r <> None /\ e_id r <> None) data ->
      sum_Z (map (fun km => sm_transaction_id (snd km))
               (store_metrics (_analyze_stores data)))
      = total_transactions (_analyze_financial_summary data))
  /\ (Forall (fun r => e_category r <> None /\ e_id r <> None) data ->
      sum_Z (map (fun km => cm_transaction_id (snd km))
               (category_metrics (_analyze_categories data)))
      = total_transactions (_analyze_financial_summary data)).
Proof.
  assert (Hs : sum_Z (map (fun km => sm_transaction_id (snd km))
                        (store_metrics (_analyze_stores data)))
               = Z.of_nat (List.length
                   (filter (fun r => notnull (e_store r) && notnull (e_id r))
                           data))).
  { cbn [_analyze_stores store_metrics].
    rewrite (sum_Z_perm _ _ (Permutation_map _ (sort_values_desc_perm _ _))).
    now apply (groupby_count_sum e_store e_id store_metric_of). }
  assert (Hc : sum_Z (map (fun km => cm_transaction_id (snd km))
                        (category_metrics (_analyze_categories data)))
               = Z.of_nat (List.length
                   (filter (fun r => notnull (e_category r) && notnull (e_id r))
                           data))).
  { cbn [_analyze_categories category_metrics].
    rewrite (sum_Z_perm _ _ (Permutation_map _ (sort_values_desc_perm _ _))).
    rewrite map_map. cbn [snd set_revenue_share cm_transaction_id].
    now apply (groupby_count_sum e_category e_id category_sums_of
                 cm_transaction_id). }
  repeat split; try assumption.
  - intros Hall. rewrite Hs, filter_all; [reflexivity|].
    eapply Forall_impl; [|exact Hall]. cbn. intros r [H1 H2].
    destruct (e_store r), (e_id r); cbn; congruence.
  - intros Hall. rewrite Hc, filter_all; [reflexivity|].
    eapply Forall_impl; [|exact Hall]. cbn. intros r [H1 H2].
    destruct (e_category r), (e_id r); cbn; congruence.
Qed.

Lemma C10_group_counts_witness :
  Forall (fun r => e_store r <> None /\ e_id r <> None)
         (enriched_of [row_latte; row_tea])
  /\ sum_Z (map (fun km => sm_transaction_id (snd km))
              (store_metrics (_analyze_stores (enriched_of [row_latte; row_tea]))))
     = 2%Z.
Proof.
  assert (Hall : Forall (fun r => e_store r <> None /\ e_id r <> None)
                        (enriched_of [row_latte; row_tea])).
  { repeat constructor; discriminate. }
  split; [exact Hall|].
  destruct (C10_group_counts (enriched_of [row_latte; row_tea]))
    as (_ & _ & Hs & _).
  rewrite (Hs Hall). reflexivity.
Defined.

(** ** Order of the number model *)

Lemma Qltb_lt (a b : Q) : Qltb a b = true <-> a < b.
Proof.
  unfold Qltb. rewrite negb_true_iff. split.
  - intros E. apply Qnot_le_lt. intros Hle.
    apply Qle_bool_iff in Hle. congruence.
  - intros Hlt. destruct (Qle_bool b a) eqn:E; [|reflexivity].
    apply Qle_bool_iff in E. exfalso. now apply (Qlt_not_le a b).
Qed.

Lemma Qltb_ge (a b : Q) : Qltb a b = false <-> b <= a.
Proof.
  unfold Qltb. rewrite negb_false_iff. apply Qle_bool_iff.
Qed.


Lemma fltb_asym (x y : float64) : fltb x y = true -> fltb y x = false.
Proof.
  destruct x as [a| | |], y as [b| | |]; cbn; try congruence.
  rewrite Qltb_lt, Qltb_ge. apply Qlt_le_weak.
Qed.




Lemma goes_after_asym (x y : float64) :
  goes_after x y = true -> goes_after y x = false.
Proof.
  destruct x as [a| | |], y as [b| | |]; cbn; try congruence.
  rewrite Qltb_lt, Qltb_ge. apply Qlt_le_weak.
Qed.

Lemma goes_after_negtrans (x y z : float64) :
  goes_after x y = false -> goes_after y z = false -> goes_after x z = false.
Proof.
  destruct x as [a| | |], y as [b| | |], z as [c| | |]; cbn; try congruence.
  rewrite !Qltb_ge. intros H1 H2. eapply Qle_trans; eassumption.
Qed.

(** ** The sorted tables *)

Lemma insert_desc_sorted {A : Type} (col : A -> float64) (x : A) (l : list A) :
  ForallOrdPairs (fun a b => goes_after (col a) (col b) = false) l ->
  ForallOrdPairs (fun a b => goes_after (col a) (col b) = false)
                 (insert_desc col x l).
Proof.
  induction 1 as [|y t Hy Ht IH]; cbn [insert_desc].
  - constructor; constructor.
  - destruct (goes_after (col x) (col y)) eqn:E.
    + constructor; [|exact IH].
      eapply Permutation_Forall;
        [apply Permutation_sym, insert_desc_perm|].
      constructor; [now apply goes_after_asym|exact Hy].
    + constructor; [|now constructor].
      constructor; [exact E|].
      eapply Forall_impl; [|exact Hy]. cbn beta. intros z Hz.
      eapply goes_after_negtrans; eassumption.
Qed.

Lemma sort_values_desc_sorted {A : Type} (col : A -> float64) (l : list A) :
  ForallOrdPairs (fun a b => goes_after (col a) (col b) = false)
                 (sort_values_desc col l).
Proof.
  induction l as [|x t IH]; cbn [sort_values_desc fold_right]; [constructor|].
  now apply insert_desc_sorted.
Qed.

(** No row of a sorted table has a larger value than the first row. *)
Lemma sort_values_desc_head {A : Type} (col : A -> float64) (l : list A)
    (x : A) (rest : list A) :
  sort_values_desc col l = x :: rest ->
  Forall (fun y => fltb (col x) (col y) = false) rest.
Proof.
  intros E. pose proof (sort_values_desc_sorted col l) as Hs.
  rewrite E in Hs. inversion Hs as [|? ? Hx _]; subst.
  eapply Forall_impl; [|exact Hx]. cbn beta. unfold goes_after.
  intros y. destruct (isnan (col x)) eqn:Ex; [|tauto].
  intros _. destruct (col x); cbn in Ex; try discriminate. reflexivity.
Qed.

(** ** Claims about the insight engine *)

Lemma best_store_inj (s s' : string) :
  ("Best performing store: " ++ s)%string
  = ("Best performing store: " ++ s')%string -> s = s'.
Proof.
  cbn [append]. congruence.
Qed.

Lemma financial_insight_not_best (margin : float64) (s : string) :
  ~ In ("Best performing store: " ++ s)%string
       (fst (financial_insight margin)).
Proof.
  unfold financial_insight.
  destruct (fgtb margin (Fin 0.5)); [|destruct (fgtb margin (Fin 0.3))];
    cbn [fst In append]; intros [E|[]]; discriminate E.
Qed.

(** The insight list: the best-store insight, when there is one, between
    insights that are not about the best store. *)
Lemma _generate_insights_shape (analysis_results : option results)
    (data : list enriched_row) (ins : insights_and_recommendations) :
  _generate_insights analysis_results data = Ok ins ->
  exists before after,
    (forall s, ~ In ("Best performing store: " ++ s)%string before)
    /\ (forall s, ~ In ("Best performing store: " ++ s)%string after)
    /\ key_insights ins
       = before
         ++ match store_metrics
                  (cached analysis_results r_store_analysis
                     (_analyze_stores data)) with
            | kv :: _ :: _ => [("Best performing store: " ++ fst kv)%string]
            | _ => []
            end
         ++ after.
Proof.
  intros Hgen. unfold _generate_insights in Hgen.
  set (stores := store_metrics
                   (cached analysis_results r_store_analysis
                      (_analyze_stores data))) in *.
  pose proof (financial_insight_not_best
                (overall_profit_margin
                   (cached analysis_results r_financial_summary
                      (_analyze_financial_summary data)))) as Hfin.
  destruct (financial_insight _) as [i0 r0]. cbn [fst] in Hfin.
  destruct (index0 (category_metrics _)) as [top_category|];
    cbn [bind] in Hgen; [|discriminate Hgen].
  match type of Hgen with
  | context [(?a ++ [?t])%list ++ [?c]] =>
      set (before := ((a ++ [t]) ++ [c])%list) in *
  end.
  assert (Hbefore : forall s,
             ~ In ("Best performing store: " ++ s)%string before).
  { intros s Hin. unfold before in Hin. rewrite !in_app_iff in Hin.
    cbn [In] in Hin.
    destruct Hin as [[Hin|[E|[]]]|[E|[]]];
      [now apply (Hfin s)|discriminate E..]. }
  clearbody before.
  assert (Hlen : (1 <? Z.of_nat (List.length stores))%Z
                 = match stores with _ :: _ :: _ => true | _ => false end).
  { destruct stores as [|kv [|kv' rest]]; try reflexivity.
    apply Z.ltb_lt. cbn [List.length]. lia. }
  rewrite Hlen in Hgen.
  destruct stores as [|kv [|kv' rest]]; cbn [index0 bind] in Hgen;
    (destruct (_analyze_temporal_patterns data) as [fresh|];
     cbn [bind] in Hgen; [|discriminate Hgen]);
    injection Hgen as <-; cbn [key_insights];
    match goal with
    | |- context [(_ ++ [?p])%list] =>
        exists before, [p]; split; [exact Hbefore|split];
          [intros s [E|[]]; discriminate E|]
    end.
  - reflexivity.
  - reflexivity.
  - now rewrite <- app_assoc.
Qed.

(** C9.  The best-store insight is in the insight list exactly when the
    store summary has more than one store; the store it names is then the
    first of the summary, and in a summary computed from the table no store
    has a larger revenue than the first. *)
Theorem C9_best_store_insight (analysis_results : option results)
    (data : list enriched_row) (ins : insights_and_recommendations) :
  _generate_insights analysis_results data = Ok ins ->
  ((exists s, In ("Best performing store: " ++ s)%string (key_insights ins))
   <-> (1 < List.length
             (store_metrics
                (cached analysis_results r_store_analysis
                   (_analyze_stores data))))%nat)
  /\ (forall s,
        In ("Best performing store: " ++ s)%string (key_insights ins) ->
        exists m rest,
          store_metrics
            (cached analysis_results r_store_analysis (_analyze_stores data))
          = (s, m) :: rest)
  /\ (forall s m rest,
        store_metrics (_analyze_stores data) = (s, m) :: rest ->
        Forall (fun km => fltb (sm_revenue m) (sm_revenue (snd km)) = false)
               rest).
Proof.
  intros Hgen. apply _generate_insights_shape in Hgen.
  destruct Hgen as (before & after & Hb & Ha & ->).
  set (stores := store_metrics
                   (cached analysis_results r_store_analysis
                      (_analyze_stores data))) in *.
  assert (Hin : forall s,
             In ("Best performing store: " ++ s)%string
                (before
                 ++ match stores with
                    | kv :: _ :: _ =>
                        [("Best performing store: " ++ fst kv)%string]
                    | _ => []
                    end ++ after)
             <-> exists m kv' rest, stores = (s, m) :: kv' :: rest).
  { intros s. rewrite !in_app_iff. split.
    - intros [Hin|[Hin|Hin]]; [now destruct (Hb s)| |now destruct (Ha s)].
      destruct stores as [|[k m] [|kv' rest]];
        [destruct Hin|destruct Hin|destruct Hin as [E|[]]].
      apply best_store_inj in E. cbn [fst] in E. subst k. eauto.
    - intros (m & kv' & rest & ->). right. left. now left. }
  split; [|split].
  - split.
    + intros [s Hs]. apply Hin in Hs. destruct Hs as (m & kv' & rest & ->).
      cbn [List.length]. lia.
    + intros Hlen. destruct stores as [|[k m] [|kv' rest]];
        cbn [List.length] in Hlen; try lia.
      exists k. apply Hin. eauto.
  - intros s Hs. apply Hin in Hs. destruct Hs as (m & kv' & rest & ->). eauto.
  - intros s m rest E. cbn [_analyze_stores store_metrics] in E.
    apply sort_values_desc_head in E. exact E.
Qed.

Lemma C9_best_store_insight_witness :
  exists data res,
    run_analysis [row_latte; row_tea] = Ok (data, res)
    /\ _generate_insights None data = Ok (r_insights_and_recommendations res)
    /\ In "Best performing store: Astoria"%string
          (key_insights (r_insights_and_recommendations res)).
Proof.
  assert (E : exists data res,
             run_analysis [row_latte; row_tea] = Ok (data, res)
             /\ _generate_insights None data
                = Ok (r_insights_and_recommendations res)
             /\ exists m kv,
                 store_metrics (_analyze_stores data)
                 = [("Astoria"%string, m); kv])
    by (do 2 eexists; split; [vm_compute; reflexivity|];
        split; [vm_compute; reflexivity|];
        do 2 eexists; vm_compute; reflexivity).
  destruct E as (data & res & Hrun & Hgen & m & kv & Hst).
  exists data, res. split; [exact Hrun|]. split; [exact Hgen|].
  destruct (C9_best_store_insight None data _ Hgen) as ([_ Hex] & Hname & _).
  cbn [cached] in Hex, Hname.
  destruct Hex as [s Hs]; [rewrite Hst; cbn [List.length]; lia|].
  destruct (Hname s Hs) as (m' & rest & E').
  rewrite Hst in E'. injection E' as <- _ _. exact Hs.
Defined.

(** ** Peaks *)





Lemma groupby_keys {R K M : Type} `{OrdKeyLaws K} (key : R -> option K)
    (f : list R -> M) (df : list R) :
  ascending (map fst (map (fun kg => (fst kg, f (snd kg))) (groupby key df))).
Proof.
  unfold groupby. rewrite !map_map. cbn [fst]. rewrite map_id.
  apply sorted_keys_ascending.
Qed.

(** ** More about the cleaner *)

Lemma filter_rows_passes (df : list raw_row) :
  filter_rows df = filter passes_filters df.
Proof.
  unfold filter_rows, passes_filters.
  induction df as [|r t IH]; [reflexivity|].
  cbn [filter]. destruct (valid_date r); cbn [filter andb]; [|exact IH].
  destruct (valid_qty r); cbn [filter andb]; [|exact IH].
  destruct (valid_price r); cbn [filter andb]; [|exact IH].
  destruct (valid_store_product r); cbn [filter andb]; [|exact IH].
  now rewrite IH.
Qed.

Lemma mapM_total {A B : Type} (f : A -> result B) (l : list A) :
  Forall (fun x => exists y, f x = Ok y) l -> exists out, mapM f l = Ok out.
Proof.
  induction 1 as [|x t [y Hy] _ [out IH]]; cbn [mapM].
  - eauto.
  - rewrite Hy, IH. cbn [bind]. eauto.
Qed.

Lemma add_calculated_fields_total (r : raw_row) :
  transaction_time r <> None -> exists y, add_calculated_fields r = Ok y.
Proof.
  intros Ht. unfold add_calculated_fields, combine_datetime.
  destruct (transaction_date r); [destruct (transaction_time r)|];
    cbn [bind]; eauto. congruence.
Qed.

(** X1.  Bad rows do not stop the cleaner.  On a table that has a row it
    returns a table whenever every row that passes the four filters has a
    time, whatever the rows that fail a filter hold; and it raises
    ZeroDivisionError exactly when the table has no row. *)
Theorem _clean_data_outcome (df : list raw_row) :
  (df <> [] ->
   Forall (fun r => transaction_time r <> None) (filter_rows df) ->
   exists data, _clean_data df = Ok data)
  /\ (_clean_data df = Raise ZeroDivisionError <-> df = []).
Proof.
  split.
  - intros Hne Hall.
    destruct (mapM_total add_calculated_fields (filter_rows df)) as [out Hout].
    { eapply Forall_impl; [|exact Hall]. apply add_calculated_fields_total. }
    exists (drop_duplicates clean_sameb out).
    apply _clean_data_intro; [exact Hne|now apply mapM_Ok].
  - split; [|intros ->; reflexivity].
    intros E. destruct df as [|r0 df']; [reflexivity|exfalso].
    destruct (existsb (fun r => negb (notnull (transaction_time r)))
                      (filter_rows (r0 :: df'))) eqn:Ex.
    + (* a surviving row without a time: ValueError *)
      apply existsb_exists in Ex. destruct Ex as (r & Hin & Hr).
      assert (Ht : transaction_time r = None)
        by (destruct (transaction_time r); [discriminate|reflexivity]).
      rewrite (_clean_data_missing_time _ r Hin Ht) in E. discriminate E.
    + (* every surviving row has a time: a table *)
      assert (Hall : Forall (fun r => transaction_time r <> None)
                            (filter_rows (r0 :: df'))).
      { apply Forall_forall. intros r Hin Ht.
        assert (Hf : existsb (fun r => negb (notnull (transaction_time r)))
                             (filter_rows (r0 :: df')) = true).
        { apply existsb_exists. exists r. split; [exact Hin|now rewrite Ht]. }
        congruence. }
      destruct (mapM_total add_calculated_fields (filter_rows (r0 :: df')))
        as [out Hout].
      { eapply Forall_impl; [|exact Hall]. apply add_calculated_fields_total. }
      rewrite (_clean_data_intro (r0 :: df') out) in E;
        [discriminate E|discriminate|now apply mapM_Ok].
Qed.

Lemma _clean_data_outcome_witness :
  exists data, _clean_data [row_latte; row_negative_qty] = Ok data.
Proof.
  apply (proj1 (_clean_data_outcome [row_latte; row_negative_qty]));
    [discriminate|].
  repeat constructor. discriminate.
Defined.

Lemma clean_sameb_refl (a : clean_row) : clean_sameb a a = true.
Proof.
  unfold clean_sameb.
  rewrite raw_sameb_refl, fsameb_refl,
    !(option_sameb_refl _ _ Z.eqb_refl),
    (option_sameb_refl _ _ Timestamp_eqb_refl),
    (option_sameb_refl _ _ String.eqb_refl), Bool.eqb_reflx.
  reflexivity.
Qed.

Lemma drop_duplicates_from_length {A : Type} (same : A -> A -> bool)
    (seen l : list A) :
  (List.length (drop_duplicates_from same seen l) <= List.length l)%nat.
Proof.
  revert seen. induction l as [|h t IH]; intros seen;
    cbn [drop_duplicates_from List.length]; [lia|].
  destruct (existsb (same h) seen); cbn [List.length].
  - specialize (IH seen). lia.
  - specialize (IH (seen ++ [h])). lia.
Qed.

(** Every row of a table equals a row that deduplication keeps or has
    already seen. *)
Lemma drop_duplicates_from_represented {A : Type} (same : A -> A -> bool)
    (seen l : list A) (x : A) :
  (forall a, same a a = true) -> In x l ->
  exists y, In y (seen ++ drop_duplicates_from same seen l) /\ same x y = true.
Proof.
  intros Hrefl. revert seen.
  induction l as [|h t IH]; intros seen Hin; [destruct Hin|].
  cbn [drop_duplicates_from].
  destruct (existsb (same h) seen) eqn:E.
  - destruct Hin as [->|Hin]; [|now apply IH].
    apply existsb_exists in E. destruct E as (s & Hs & Ehs).
    exists s. split; [apply in_or_app; now left|exact Ehs].
  - destruct Hin as [->|Hin].
    + exists x. split; [apply in_or_app; right; now left|apply Hrefl].
    + destruct (IH (seen ++ [h]) Hin) as (y & Hy & Exy).
      exists y. split; [|exact Exy].
      rewrite <- app_assoc in Hy. exact Hy.
Qed.

Lemma Forall2_In_l {A B : Type} (R : A -> B -> Prop) (l : list A) (l' : list B)
    (x : A) :
  Forall2 R l l' -> In x l -> exists y, In y l' /\ R x y.
Proof.
  induction 1 as [|a b l l' Hab _ IH]; [intros []|].
  intros [->|Hin].
  - exists b. split; [now left|exact Hab].
  - destruct (IH Hin) as (y & Hy & Hxy). exists y. split; [now right|exact Hxy].
Qed.

(** X2.  The cleaner invents no row and loses no valid one: the raw columns of
    a returned row are those of an input row; every input row that passes
    the four filters agrees on all raw columns with a returned row; and the
    table does not grow. *)
Theorem _clean_data_rows (df : list raw_row) (data : list clean_row) :
  _clean_data df = Ok data ->
  (forall y, In y data -> In (raw y) df)
  /\ (forall r, In r df -> passes_filters r = true ->
        exists y, In y data /\ raw_sameb r (raw y) = true)
  /\ (List.length data <= List.length df)%nat.
Proof.
  intros H. apply _clean_data_Ok in H. destruct H as (_ & out & Hout & ->).
  pose proof (calculated_raw _ _ Hout) as Hraw.
  pose proof (calculated_self _ _ Hout) as Hself.
  rewrite Forall_forall in Hself.
  split; [|split].
  - intros y Hy. apply drop_duplicates_from_In in Hy.
    assert (Hin : In (raw y) (filter_rows df))
      by (rewrite <- Hraw; now apply in_map).
    now apply filter_rows_In in Hin.
  - intros r Hr Hpass.
    assert (Hin : In r (filter_rows df))
      by (rewrite filter_rows_passes; apply filter_In; split; assumption).
    destruct (Forall2_In_l _ _ _ _ Hout Hin) as (x & Hx & Hcalc).
    destruct (drop_duplicates_from_represented clean_sameb [] out x
                clean_sameb_refl Hx) as (y & Hy & Exy).
    cbn [app] in Hy. exists y. split; [exact Hy|].
    rewrite clean_sameb_raw in Exy.
    + now rewrite (add_calculated_fields_raw _ _ Hcalc) in Exy.
    + now apply Hself.
    + apply Hself. eapply drop_duplicates_from_In, Hy.
  - unfold drop_duplicates.
    pose proof (drop_duplicates_from_length clean_sameb [] out) as H1.
    pose proof (Forall2_length Hout) as H2.
    assert (H3 : (List.length (filter_rows df) <= List.length df)%nat).
    { rewrite filter_rows_passes. apply filter_length_le. }
    lia.
Qed.

Lemma _clean_data_rows_witness :
  _clean_data [row_latte; row_pricey; row_latte]
  = Ok (cleaned_of [row_latte; row_pricey; row_latte])
  /\ (List.length (cleaned_of [row_latte; row_pricey; row_latte]) <= 3)%nat.
Proof.
  split; [reflexivity|].
  now destruct (_clean_data_rows [row_latte; row_pricey; row_latte]
                  (cleaned_of [row_latte; row_pricey; row_latte]) eq_refl)
    as (_ & _ & Hlen).
Defined.

Lemma _clean_data_idempotent_witness :
  _clean_data [row_latte; row_tea; row_latte]
  = Ok (cleaned_of [row_latte; row_tea; row_latte])
  /\ cleaned_of [row_latte; row_tea; row_latte] <> []
  /\ _clean_data (as_raw (cleaned_of [row_latte; row_tea; row_latte]))
     = Ok (cleaned_of [row_latte; row_tea; row_latte]).
Proof.
  split; [reflexivity|]. split; [discriminate|].
  apply (_clean_data_idempotent [row_latte; row_tea; row_latte]);
    [reflexivity|discriminate].
Defined.

(** ** The calculated columns *)

Lemma dt_weekday_range (d : Timestamp) : (0 <= dt_weekday d < 7)%Z.
Proof.
  unfold dt_weekday. apply Z.mod_pos_bound. lia.
Qed.

(** X5.  Lines 83 and 85 agree: the weekend flag of a row is set exactly when
    its weekday name is Saturday or Sunday. *)
Theorem is_weekend_day_of_week (r : raw_row) (y : clean_row) :
  add_calculated_fields r = Ok y ->
  is_weekend y = true
  <-> day_of_week y = Some "Saturday"%string
      \/ day_of_week y = Some "Sunday"%string.
Proof.
  intros H. apply add_calculated_fields_columns in H.
  destruct H as (_ & _ & _ & Hw & _ & He). rewrite Hw, He.
  destruct (transaction_date r) as [d|]; cbn [option_map].
  2:{ split; [discriminate|intros [E|E]; discriminate]. }
  unfold dt_day_name. pose proof (dt_weekday_range d) as Hr.
  assert (Hc : (dt_weekday d = 0 \/ dt_weekday d = 1 \/ dt_weekday d = 2
                \/ dt_weekday d = 3 \/ dt_weekday d = 4 \/ dt_weekday d = 5
                \/ dt_weekday d = 6)%Z) by lia.
  destruct Hc as [E|[E|[E|[E|[E|[E|E]]]]]]; rewrite E; cbn;
    (split; [intros Hf; try discriminate Hf; auto
            |intros [Hf|Hf]; try discriminate Hf; reflexivity]).
Qed.

Lemma is_weekend_day_of_week_witness :
  exists y, add_calculated_fields row_latte = Ok y
            /\ is_weekend y = true
            /\ (day_of_week y = Some "Saturday"%string
                \/ day_of_week y = Some "Sunday"%string).
Proof.
  eexists. split; [reflexivity|]. split; [reflexivity|].
  match goal with
  | |- day_of_week ?y = _ \/ _ =>
      apply (proj1 (is_weekend_day_of_week row_latte y eq_refl))
  end.
  reflexivity.
Defined.

Lemma fmul_positive (q p : float64) :
  fltb (Fin 0) q = true -> fltb (Fin 0) p = true -> fltb (Fin 0) (fmul q p) = true.
Proof.
  destruct q as [a| | |], p as [b| | |]; cbn [fltb fmul]; try discriminate.
  - rewrite !Qltb_lt. intros Ha Hb.
    setoid_replace 0 with (0 * b) by ring. now apply Qmult_lt_compat_r.
  - rewrite Qltb_lt. intros Ha _. cbn [fsgn]. unfold Qsgn.
    assert (Hn : (0 < Qnum a)%Z) by (unfold Qlt in Ha; cbn in Ha; lia).
    destruct (Qnum a); try lia. reflexivity.
  - intros _. rewrite Qltb_lt. intros Hb. cbn [fsgn]. unfold Qsgn.
    assert (Hn : (0 < Qnum b)%Z) by (unfold Qlt in Hb; cbn in Hb; lia).
    destruct (Qnum b); try lia. reflexivity.
  - reflexivity.
Qed.

(** Where a cleaned row comes from: a row of the input that passes the
    filters, with the calculated columns of that row. *)
Lemma cleaned_row_origin (df : list raw_row) (data : list clean_row)
    (y : clean_row) :
  _clean_data df = Ok data -> In y data ->
  add_calculated_fields (raw y) = Ok y /\ In (raw y) (filter_rows df).
Proof.
  intros H Hy. apply _clean_data_Ok in H. destruct H as (_ & out & Hout & ->).
  pose proof (calculated_self _ _ Hout) as Hself.
  pose proof (calculated_raw _ _ Hout) as Hraw.
  rewrite Forall_forall in Hself.
  apply drop_duplicates_from_In in Hy. split; [now apply Hself|].
  rewrite <- Hraw. now apply in_map.
Qed.

(** The revenue of a row that passes the quantity and price filters. *)
Lemma valid_row_revenue (r : raw_row) :
  valid_qty r = true -> valid_price r = true ->
  fltb (Fin 0) (fmul (transaction_qty r) (unit_price r)) = true.
Proof.
  unfold valid_qty, fgtb, valid_price, fgeb. intros Hq Hp.
  apply andb_true_iff in Hp. destruct Hp as [Hlo _].
  apply fmul_positive; [exact Hq|].
  destruct (unit_price r) as [p| | |]; cbn [fleb] in Hlo;
    try discriminate Hlo; [|reflexivity].
  cbn [fltb]. apply Qltb_lt. apply Qle_bool_iff in Hlo.
  eapply Qlt_le_trans; [|exact Hlo]. reflexivity.
Qed.

(** X6.  Every row the cleaner returns has a date with its year, month and
    day name, and a revenue that is not missing and not below 0.  When the
    row has a time, its datetime combines its date with that time, and its
    hour is the hour of that time whenever minute and second are in
    range. *)
Theorem cleaned_rows_calculated (df : list raw_row) (data : list clean_row) :
  _clean_data df = Ok data ->
  Forall (fun y =>
            notna (revenue y) = true /\ fltb (revenue y) (Fin 0) = false
            /\ year y <> None /\ month y <> None /\ day_of_week y <> None
            /\ exists d,
                 transaction_date (raw y) = Some d
                 /\ forall t,
                      transaction_time (raw y) = Some t ->
                      datetime y
                      = Some {| ts_days := ts_days d;
                                ts_secs := (t_hour t * 3600 + t_minute t * 60
                                            + t_second t)%Z |}
                      /\ ((0 <= t_minute t < 60)%Z ->
                          (0 <= t_second t < 60)%Z ->
                          hour y = Some (t_hour t)))
         data.
Proof.
  intros H. apply Forall_forall. intros y Hy.
  destruct (cleaned_row_origin df data y H Hy) as [Hself Hin].
  apply filter_rows_In in Hin. destruct Hin as (_ & Hd & Hq & Hp & _).
  pose proof (add_calculated_fields_revenue _ _ Hself) as Hrev.
  pose proof (add_calculated_fields_columns _ _ Hself)
    as (Hdt & Hyear & Hmonth & Hdow & Hhour & _).
  pose proof (valid_row_revenue _ Hq Hp) as Hpos. rewrite <- Hrev in Hpos.
  unfold valid_date in Hd. unfold combine_datetime in Hdt.
  destruct (transaction_date (raw y)) as [d|]; [|discriminate Hd].
  split; [|split; [|split; [|split; [|split]]]].
  - destruct (revenue y); [reflexivity|reflexivity|discriminate Hpos
                          |discriminate Hpos].
  - destruct (revenue y) as [q| | |]; cbn [fltb] in Hpos |- *;
      try discriminate Hpos; [|reflexivity].
    apply Qltb_ge. apply Qltb_lt in Hpos. now apply Qlt_le_weak.
  - rewrite Hyear. discriminate.
  - rewrite Hmonth. discriminate.
  - rewrite Hdow. discriminate.
  - exists d. split; [reflexivity|]. intros t Ht. rewrite Ht in Hdt.
    injection Hdt as Hdt. split; [now rewrite <- Hdt|].
    intros Hm Hs. rewrite Hhour, <- Hdt. cbn [option_map]. f_equal.
    unfold dt_hour. cbn [ts_secs].
    symmetry. apply (Z.div_unique _ _ _ (t_minute t * 60 + t_second t)%Z); lia.
Qed.

Lemma cleaned_rows_calculated_witness :
  _clean_data [row_latte; row_tea] = Ok (cleaned_of [row_latte; row_tea])
  /\ Forall (fun y => notna (revenue y) = true /\ year y <> None)
            (cleaned_of [row_latte; row_tea]).
Proof.
  split; [reflexivity|].
  eapply Forall_impl;
    [|apply (cleaned_rows_calculated [row_latte; row_tea]); reflexivity].
  cbn beta. tauto.
Defined.

(** ** More about the cost estimator and the financial summary *)









(** ** Totals of the financial summary *)





(** ** The shape of the summary tables *)

Lemma In_omap {A B : Type} (f : A -> option B) (l : list A) (b : B) :
  In b (omap f l) <-> exists a, In a l /\ f a = Some b.
Proof.
  unfold omap. rewrite in_flat_map. split.
  - intros (a & Ha & Hb). exists a. split; [exact Ha|].
    destruct (f a) as [b'|]; [|destruct Hb].
    destruct Hb as [->|[]]. reflexivity.
  - intros (a & Ha & E). exists a. split; [exact Ha|]. rewrite E. now left.
Qed.

Lemma ascending_NoDup {K : Type} `{OrdKeyLaws K} (l : list K) :
  ascending l -> NoDup l.
Proof.
  induction 1 as [|k l Hk _ IH]; constructor; [|exact IH].
  intros Hin. specialize (Hk k Hin). rewrite kcmp_refl in Hk. discriminate.
Qed.

Lemma groupby_table_keys {R K M : Type} `{OrdKeyLaws K} (key : R -> option K)
    (f : list R -> M) (df : list R) (k : K) :
  In k (map fst (map (fun kg => (fst kg, f (snd kg))) (groupby key df)))
  <-> exists r, In r df /\ key r = Some k.
Proof.
  unfold groupby. rewrite !map_map. cbn [fst]. rewrite map_id.
  rewrite In_sorted_keys. apply In_omap.
Qed.

(** A grouped table is keyed by its column, in whatever order it is
    sorted afterwards. *)
Lemma sorted_groupby_keyed {R M : Type} (key : R -> option string)
    (f : list R -> M) (col : string * M -> float64) (data : list R) :
  keyed_by key f data
    (sort_values_desc col
       (map (fun kg => (fst kg, f (snd kg))) (groupby key data))).
Proof.
  pose proof (sort_values_desc_perm col
                (map (fun kg => (fst kg, f (snd kg))) (groupby key data))) as P.
  split; [|split].
  - apply (Permutation_NoDup (Permutation_sym (Permutation_map fst P))).
    apply ascending_NoDup, groupby_keys.
  - intros k. rewrite <- (groupby_table_keys key f). split; intros Hin.
    + apply (Permutation_in _ (Permutation_map fst P)), Hin.
    + apply (Permutation_in _ (Permutation_sym (Permutation_map fst P))), Hin.
  - intros k m Hin. apply (groupby_agg_In key f).
    apply (Permutation_in _ P), Hin.
Qed.

Lemma category_metrics_keyed (data : list enriched_row) :
  exists total,
    keyed_by e_category
      (fun g => set_revenue_share total (category_sums_of g)) data
      (category_metrics (_analyze_categories data)).
Proof.
  cbn [_analyze_categories category_metrics]. eexists.
  rewrite map_map. cbn [fst snd].
  apply (sorted_groupby_keyed e_category
           (fun g => set_revenue_share _ (category_sums_of g))).
Qed.

(** X11.  Each of the product, category and store summaries has exactly
    one row for every distinct value present in its column, and no other
    row; the row of a value is computed from exactly the transactions that
    carry it (for a category, together with the total the shares refer
    to). *)
Theorem summary_tables_keyed (data : list enriched_row) :
  keyed_by e_detail product_metric_of data
    (product_metrics (_analyze_products data))
  /\ (exists total,
        keyed_by e_category
          (fun g => set_revenue_share total (category_sums_of g)) data
          (category_metrics (_analyze_categories data)))
  /\ keyed_by e_store store_metric_of data
       (store_metrics (_analyze_stores data)).
Proof.
  split; [|split].
  - apply (sorted_groupby_keyed e_detail product_metric_of).
  - apply category_metrics_keyed.
  - apply (sorted_groupby_keyed e_store store_metric_of).
Qed.

Lemma ForallOrdPairs_impl {A : Type} (P Q : A -> A -> Prop) (l : list A) :
  (forall a b, P a b -> Q a b) -> ForallOrdPairs P l -> ForallOrdPairs Q l.
Proof.
  intros HPQ. induction 1 as [|a l Ha _ IH]; constructor; [|exact IH].
  eapply Forall_impl; [|exact Ha]. intros b. apply HPQ.
Qed.

Lemma goes_after_false (x y : float64) :
  goes_after x y = false ->
  fltb x y = false /\ (isnan x = true -> isnan y = true).
Proof.
  unfold goes_after, notna. destruct x, y; cbn; intros E; split;
    congruence || reflexivity.
Qed.

Lemma sort_values_desc_descending {A : Type} (col : A -> float64) (l : list A) :
  descending col (sort_values_desc col l).
Proof.
  eapply ForallOrdPairs_impl; [|apply sort_values_desc_sorted].
  intros a b. apply goes_after_false.
Qed.

(** X12.  The product summary is in descending order of profit, the
    category and store summaries in descending order of revenue, rows
    whose value is missing last. *)
Theorem summary_tables_sorted (data : list enriched_row) :
  descending (fun km => pm_estimated_profit (snd km))
    (product_metrics (_analyze_products data))
  /\ descending (fun km => cm_revenue (snd km))
       (category_metrics (_analyze_categories data))
  /\ descending (fun km => sm_revenue (snd km))
       (store_metrics (_analyze_stores data)).
Proof.
  repeat split; apply sort_values_desc_descending.
Qed.

Lemma ForallOrdPairs_app {A : Type} (P : A -> A -> Prop) (l1 l2 : list A) :
  ForallOrdPairs P (l1 ++ l2) ->
  forall a b, In a l1 -> In b l2 -> P a b.
Proof.
  induction l1 as [|x l1 IH]; cbn [app]; intros Hall a b Ha Hb; [destruct Ha|].
  inversion Hall as [|? ? Hx Hrest]; subst.
  destruct Ha as [<-|Ha].
  - rewrite Forall_forall in Hx. apply Hx, in_or_app. now right.
  - now apply IH.
Qed.

(** X13.  The top performers are the first 10 rows of the product summary
    (all of them when there are fewer) and no product outside them has a
    larger profit than one of them; the bottom performers are its last 5
    rows and none of them has a larger profit than a product outside them.
    With at most 5 products both tables are the whole summary. *)
Theorem top_bottom_performers (data : list enriched_row) :
  let pa := _analyze_products data in
  let profit := fun km : string * product_metric => pm_estimated_profit (snd km) in
  (exists rest,
     product_metrics pa = top_performers pa ++ rest
     /\ List.length (top_performers pa)
        = Nat.min 10 (List.length (product_metrics pa))
     /\ forall t x, In t (top_performers pa) -> In x rest ->
                    fltb (profit t) (profit x) = false)
  /\ (exists front,
        product_metrics pa = front ++ bottom_performers pa
        /\ List.length (bottom_performers pa)
           = Nat.min 5 (List.length (product_metrics pa))
        /\ forall x b, In x front -> In b (bottom_performers pa) ->
                       fltb (profit x) (profit b) = false)
  /\ ((List.length (product_metrics pa) <= 5)%nat ->
      top_performers pa = product_metrics pa
      /\ bottom_performers pa = product_metrics pa).
Proof.
  intros pa profit.
  assert (Hs : descending profit (product_metrics pa))
    by apply sort_values_desc_descending.
  unfold pa in *. cbn [_analyze_products product_metrics top_performers
                       bottom_performers] in *.
  set (t := sort_values_desc _ _) in *.
  unfold head, tail. split; [|split].
  - exists (skipn 10 t). split; [symmetry; apply firstn_skipn|].
    split; [apply length_firstn|].
    intros a b Ha Hb.
    rewrite <- (firstn_skipn 10 t) in Hs.
    apply (ForallOrdPairs_app _ _ _ Hs a b Ha Hb).
  - exists (firstn (List.length t - 5) t).
    split; [symmetry; apply firstn_skipn|].
    split; [rewrite length_skipn; lia|].
    intros a b Ha Hb.
    rewrite <- (firstn_skipn (List.length t - 5) t) in Hs.
    apply (ForallOrdPairs_app _ _ _ Hs a b Ha Hb).
  - intros Hle. split.
    + apply firstn_all2. lia.
    + replace (List.length t - 5)%nat with 0%nat by lia. reflexivity.
Qed.

Lemma top_bottom_performers_witness :
  top_performers (_analyze_products (enriched_of [row_latte; row_tea]))
  = product_metrics (_analyze_products (enriched_of [row_latte; row_tea])).
Proof.
  apply (proj2 (proj2 (top_bottom_performers (enriched_of [row_latte; row_tea])))).
  vm_compute. lia.
Defined.

(** ** How a run of the analysis ends *)





















(** ** Later runs on the same object *)

(** The insights depend on the data only through the five analyses the
    engine reads, cached or fresh. *)
Lemma _generate_insights_ext (ar1 ar2 : option results)
    (d1 d2 : list enriched_row) (t1 t2 : temporal_analysis) :
  cached ar1 r_financial_summary (_analyze_financial_summary d1)
  = cached ar2 r_financial_summary (_analyze_financial_summary d2) ->
  cached ar1 r_product_analysis (_analyze_products d1)
  = cached ar2 r_product_analysis (_analyze_products d2) ->
  cached ar1 r_category_analysis (_analyze_categories d1)
  = cached ar2 r_category_analysis (_analyze_categories d2) ->
  cached ar1 r_store_analysis (_analyze_stores d1)
  = cached ar2 r_store_analysis (_analyze_stores d2) ->
  _analyze_temporal_patterns d1 = Ok t1 ->
  _analyze_temporal_patterns d2 = Ok t2 ->
  cached ar1 r_temporal_analysis t1 = cached ar2 r_temporal_analysis t2 ->
  _generate_insights ar1 d1 = _generate_insights ar2 d2.
Proof.
  intros Hf Hp Hc Hs Ht1 Ht2 Ht. unfold _generate_insights.
  rewrite Hf, Hp, Hc, Hs, Ht1, Ht2. cbn [bind]. rewrite Ht. reflexivity.
Qed.

Lemma analyze_profitability_Ok (cleaned : list clean_row)
    (ar : option results) (d : list enriched_row) (res : results) :
  analyze_profitability (Some cleaned) ar = Ok (d, res) ->
  d = enrich cleaned
  /\ r_financial_summary res = _analyze_financial_summary d
  /\ r_product_analysis res = _analyze_products d
  /\ r_category_analysis res = _analyze_categories d
  /\ r_store_analysis res = _analyze_stores d
  /\ _analyze_temporal_patterns d = Ok (r_temporal_analysis res)
  /\ _generate_insights ar d = Ok (r_insights_and_recommendations res).
Proof.
  unfold analyze_profitability.
  destruct (_analyze_temporal_patterns (enrich cleaned)) as [t|e] eqn:Et;
    cbn [bind]; [|discriminate].
  destruct (_generate_insights ar (enrich cleaned)) as [ins|e] eqn:Ei;
    cbn [bind]; [|discriminate].
  intros E. injection E as <- <-.
  cbn [r_financial_summary r_product_analysis r_category_analysis
       r_store_analysis r_temporal_analysis r_insights_and_recommendations].
  repeat split; assumption.
Qed.

(** X15.  The insights are never refreshed.  When an object that has
    completed one analysis is run again, on the same or on another cleaned
    table, the five summaries of the second run are computed from the new
    table, but its insights and recommendations are those of the first
    run: the engine reads the results cached by the first run. *)
Theorem second_run_insights_stale (cleaned1 cleaned2 : list clean_row)
    (d1 d2 : list enriched_row) (res1 res2 : results) :
  analyze_profitability (Some cleaned1) None = Ok (d1, res1) ->
  analyze_profitability (Some cleaned2) (Some res1) = Ok (d2, res2) ->
  r_insights_and_recommendations res2 = r_insights_and_recommendations res1
  /\ r_financial_summary res2 = _analyze_financial_summary (enrich cleaned2)
  /\ r_product_analysis res2 = _analyze_products (enrich cleaned2)
  /\ r_category_analysis res2 = _analyze_categories (enrich cleaned2)
  /\ r_store_analysis res2 = _analyze_stores (enrich cleaned2).
Proof.
  intros H1 H2.
  apply analyze_profitability_Ok in H1.
  destruct H1 as (_ & Hf1 & Hp1 & Hc1 & Hs1 & Ht1 & Hi1).
  apply analyze_profitability_Ok in H2.
  destruct H2 as (-> & Hf2 & Hp2 & Hc2 & Hs2 & Ht2 & Hi2).
  split; [|repeat split; assumption].
  assert (E : _generate_insights (Some res1) (enrich cleaned2)
              = _generate_insights None d1).
  { apply (_generate_insights_ext (Some res1) None (enrich cleaned2) d1
             (r_temporal_analysis res2) (r_temporal_analysis res1));
      cbn [cached]; congruence. }
  rewrite E, Hi1 in Hi2. now injection Hi2.
Qed.

Lemma second_run_insights_stale_witness :
  exists d1 res1 d2 res2,
    analyze_profitability (Some (cleaned_of [row_latte])) None = Ok (d1, res1)
    /\ analyze_profitability (Some (cleaned_of [row_tea])) (Some res1)
       = Ok (d2, res2)
    /\ r_insights_and_recommendations res2 = r_insights_and_recommendations res1
    /\ In "Most profitable category: Coffee"%string
          (key_insights (r_insights_and_recommendations res2))
    /\ map fst (category_metrics (r_category_analysis res2)) = ["Tea"%string].
Proof.
  destruct (analyze_profitability (Some (cleaned_of [row_latte])) None)
    as [[d1 res1]|e] eqn:E1; [|vm_compute in E1; discriminate E1].
  destruct (analyze_profitability (Some (cleaned_of [row_tea])) (Some res1))
    as [[d2 res2]|e] eqn:E2.
  - exists d1, res1, d2, res2. split; [reflexivity|]. split; [exact E2|].
    destruct (second_run_insights_stale _ _ _ _ _ _ E1 E2)
      as (Hi & _ & _ & Hc & _).
    split; [exact Hi|]. split.
    + rewrite Hi. vm_compute in E1. injection E1 as _ <-. vm_compute. tauto.
    + rewrite Hc. vm_compute. reflexivity.
  - exfalso. vm_compute in E1. injection E1 as _ <-.
    vm_compute in E2. discriminate E2.
Defined.

(** ** The peaks come from the data *)






(** ** Claims decided by float64 rounding *)

(** *** The cost estimator *)






(** *** The aggregations and the order of the rows *)












